(** * zeckendorf-article: the equation renderer [src/render.ts]

    A shallow embedding of the original logic of [render.ts]: the input
    enumerator ([listTexFiles]), the outline pass ([addOutlineToMathJaxSvg]),
    the margin pass ([addMarginToSvg]) and the batch loop ([main]).

    - JavaScript strings are [string]s whose characters are code units below
      256; JavaScript numbers are IEEE 754 binary64 values, the kernel's
      [float].
    - The DOM of [@xmldom/xmldom] is a tree of elements with ordered
      attribute lists.  Text to tree and back ([DOMParser],
      [XMLSerializer]), MathJax, sharp and the file system are collaborators
      of the program and enter as variables of the section that embeds
      [main].  Each of them that can fail in the program can fail here:
      the parser prints what it finds wrong with a text on the console
      and throws on a text that is not well-formed. *)

From Stdlib Require Import ZArith List String Ascii Bool Lia.
From Stdlib Require Import DecimalString Sorting Permutation.
From Stdlib Require Import OrderedTypeEx.
From Stdlib Require Import PrimFloat SpecFloat FloatOps FloatAxioms.
Import ListNotations.

Local Open Scope string_scope.
Local Open Scope Z_scope.

(** ** JavaScript strings *)

Module JSString.

Definition code (c : ascii) : N := N_of_ascii c.

(** WhiteSpace and LineTerminator code units below 256: what [trim], the
    regular expression class [\s] and StrWhiteSpaceChar accept. *)
Definition isWhiteSpace (c : ascii) : bool :=
  let n := code c in
  ((9 <=? n) && (n <=? 13) || (n =? 32) || (n =? 160))%N.

Fixpoint trimStart (s : string) : string :=
  match s with
  | String c s' => if isWhiteSpace c then trimStart s' else s
  | EmptyString => EmptyString
  end.

Fixpoint trimEnd (s : string) : string :=
  match s with
  | String c s' =>
      match trimEnd s' with
      | EmptyString => if isWhiteSpace c then EmptyString else String c EmptyString
      | t => String c t
      end
  | EmptyString => EmptyString
  end.

Definition trim (s : string) : string := trimEnd (trimStart s).

(** [toLowerCase] on one code unit below 256: A-Z and the Latin-1 capitals
    U+00C0-U+00DE (without the multiplication sign U+00D7) move by 32. *)
Definition lowerChar (c : ascii) : ascii :=
  let n := code c in
  if ((65 <=? n) && (n <=? 90) || (192 <=? n) && (n <=? 222) && negb (n =? 215))%N
  then ascii_of_N (n + 32) else c.

Fixpoint toLowerCase (s : string) : string :=
  match s with
  | String c s' => String (lowerChar c) (toLowerCase s')
  | EmptyString => EmptyString
  end.

(** [s.startsWith(p)] *)
Definition startsWith (s p : string) : bool := String.prefix p s.

(** [s.endsWith(suffix)]: some tail of [s] is [suffix]. *)
Fixpoint endsWith (s suffix : string) : bool :=
  String.eqb s suffix ||
  match s with
  | String _ s' => endsWith s' suffix
  | EmptyString => false
  end.

(** [s.includes(sub)]: [sub] starts at some position of [s]. *)
Fixpoint includes (s sub : string) : bool :=
  startsWith s sub ||
  match s with
  | String _ s' => includes s' sub
  | EmptyString => false
  end.

(** [s.split(/\s+/)]: the pieces between maximal runs of white space; a
    run at either end of [s] leaves an empty piece there.  [cur] is the
    piece being read, [inRun] says that the last character closed one. *)
Fixpoint splitWs (cur : string) (inRun : bool) (s : string) : list string :=
  match s with
  | EmptyString => [cur]
  | String c s' =>
      if isWhiteSpace c
      then (if inRun then splitWs EmptyString true s'
            else cur :: splitWs EmptyString true s')
      else splitWs (cur ++ String c EmptyString) false s'
  end.

Definition split_whitespace (s : string) : list string :=
  splitWs EmptyString false s.

Fixpoint drop (n : nat) (s : string) : string :=
  match n, s with
  | S n', String _ s' => drop n' s'
  | _, _ => s
  end.

Definition isEmpty (s : string) : bool :=
  match s with EmptyString => true | _ => false end.

End JSString.

(** ** JavaScript numbers

    A Number is a binary64 value: arithmetic and comparisons are the
    kernel's.  What the language adds is the conversions: StringToNumber
    ([Number(s)]), [parseFloat], Number::toString and [Math.round]. *)

Module JSNumber.
Import JSString.

Definition number := float.

Definition isNaN (x : number) : bool := PrimFloat.is_nan x.

(** The Number value of the positive rational [num / den]: the nearest
    double, ties to even, infinity past the largest one. *)
Definition roundRatio (neg : bool) (num den : Z) : number :=
  let s := Z.max 0 (Z.log2 den + 64 - Z.log2 num) in
  let n := num * 2 ^ s in
  let q := n / den in
  let r := n mod den in
  let loc := if r =? 0 then loc_Exact else loc_Inexact (2 * r ?= den) in
  SF2Prim (binary_round_aux prec emax neg q (- s) loc).

(** The Number value of [m * 10 ^ e10], [0 <= m]. *)
Definition ofDecimal (neg : bool) (m e10 : Z) : number :=
  if m =? 0 then (if neg then neg_zero else zero)
  else if 0 <=? e10 then roundRatio neg (m * 10 ^ e10) 1
  else roundRatio neg m (10 ^ (- e10)).

Definition digitValue (radix : Z) (c : ascii) : option Z :=
  let n := Z.of_N (code c) in
  let v := if (48 <=? n) && (n <=? 57) then n - 48
           else if (97 <=? n) && (n <=? 122) then n - 87
           else if (65 <=? n) && (n <=? 90) then n - 55
           else radix in
  if v <? radix then Some v else None.

(** Reads digits of [radix] off the front of [s], continuing the value
    [acc]; returns the value, the number of digits read and the rest. *)
Fixpoint readDigits (radix acc cnt : Z) (s : string) : Z * Z * string :=
  match s with
  | String c s' =>
      match digitValue radix c with
      | Some v => readDigits radix (acc * radix + v) (cnt + 1) s'
      | None => (acc, cnt, s)
      end
  | EmptyString => (acc, cnt, s)
  end.

(** ExponentPart, when one is there: [e] or [E], a sign, digits. *)
Definition readExponent (s : string) : Z * string :=
  match s with
  | String c s1 =>
      if (Ascii.eqb c "e" || Ascii.eqb c "E")%char then
        let '(neg, s2) :=
          match s1 with
          | String "-"%char t => (true, t)
          | String "+"%char t => (false, t)
          | _ => (false, s1)
          end in
        let '(v, cnt, rest) := readDigits 10 0 0 s2 in
        if cnt =? 0 then (0, s) else ((if neg then - v else v), rest)
      else (0, s)
  | EmptyString => (0, s)
  end.

(** The longest StrUnsignedDecimalLiteral at the front of [s]. *)
Definition readUnsigned (neg : bool) (s : string) : option (number * string) :=
  if startsWith s "Infinity"
  then Some ((if neg then neg_infinity else infinity), drop 8 s)
  else
    let '(ip, ni, r1) := readDigits 10 0 0 s in
    match r1 with
    | String "."%char r2 =>
        let '(m, nf, r3) := readDigits 10 ip 0 r2 in
        if (ni =? 0) && (nf =? 0) then None
        else let '(e, rest) := readExponent r3 in
             Some (ofDecimal neg m (e - nf), rest)
    | _ =>
        if ni =? 0 then None
        else let '(e, rest) := readExponent r1 in
             Some (ofDecimal neg ip e, rest)
    end.

(** The longest StrDecimalLiteral at the front of [s]. *)
Definition readDecimal (s : string) : option (number * string) :=
  match s with
  | String "-"%char t => readUnsigned true t
  | String "+"%char t => readUnsigned false t
  | _ => readUnsigned false s
  end.

(** [parseFloat(s)] *)
Definition parseFloat (s : string) : number :=
  match readDecimal (trimStart s) with
  | Some (x, _) => x
  | None => nan
  end.

Definition readRadix (radix : Z) (s : string) : number :=
  let '(v, cnt, rest) := readDigits radix 0 0 s in
  if (0 <? cnt) && isEmpty rest then ofDecimal false v 0 else nan.

(** [Number(s)]: StringToNumber. *)
Definition Number (s : string) : number :=
  match trim s with
  | EmptyString => zero
  | String "0"%char (String c t) as u =>
      if (Ascii.eqb c "x" || Ascii.eqb c "X")%char then readRadix 16 t
      else if (Ascii.eqb c "o" || Ascii.eqb c "O")%char then readRadix 8 t
      else if (Ascii.eqb c "b" || Ascii.eqb c "B")%char then readRadix 2 t
      else match readDecimal u with
           | Some (x, EmptyString) => x
           | _ => nan
           end
  | u => match readDecimal u with
         | Some (x, EmptyString) => x
         | _ => nan
         end
  end.

(** *** Number::toString (radix 10) *)

Definition showZ (z : Z) : string := NilZero.string_of_int (Z.to_int z).

Fixpoint zeros (n : nat) : string :=
  match n with
  | O => EmptyString
  | S n' => String "0" (zeros n')
  end.

(** [10 ^ n <= num / den] *)
Definition gePow10 (num den n : Z) : bool :=
  if 0 <=? n then den * 10 ^ n <=? num else den <=? num * 10 ^ (- n).

(** From an estimate to the [n] with [10 ^ (n - 1) <= num / den < 10 ^ n]. *)
Fixpoint adjustExp (fuel : nat) (num den n : Z) : Z :=
  match fuel with
  | O => n
  | S fuel' =>
      if gePow10 num den n then adjustExp fuel' num den (n + 1)
      else if gePow10 num den (n - 1) then n
      else adjustExp fuel' num den (n - 1)
  end.

Definition decimalExp (num den : Z) : Z :=
  adjustExp 8 num den ((Z.log2 num - Z.log2 den) * 30103 / 100000 + 1).

(** The digits [s] and the exponent [n] of the specification: the fewest
    digits [k] such that [s * 10 ^ (n - k)] has Number value [x], the
    nearest such [s], the even one when two are as near.  [x = num / den]
    is finite and positive; [k] runs from [k] to [k + fuel]. *)
Fixpoint shortest (fuel : nat) (x : number) (num den n k : Z) : Z * Z :=
  let '(a, b) := if 0 <=? k - n then (num * 10 ^ (k - n), den)
                 else (num, den * 10 ^ (n - k)) in
  let lo := a / b in
  let hi := lo + 1 in
  let okLo := (0 <? lo) && PrimFloat.eqb (ofDecimal false lo (n - k)) x in
  let okHi := PrimFloat.eqb (ofDecimal false hi (n - k)) x in
  let pick (s : Z) := if s =? 10 ^ k then (1, n + 1) else (s, n) in
  let nearer := match 2 * a ?= (2 * lo + 1) * b with
                | Lt => lo
                | Gt => hi
                | Eq => if Z.even lo then lo else hi
                end in
  match fuel with
  | O => pick lo
  | S fuel' =>
      if okLo && okHi then pick nearer
      else if okLo then pick lo
      else if okHi then pick hi
      else shortest fuel' x num den n (k + 1)
  end.

Definition showPositive (x : number) (m : positive) (e : Z) : string :=
  let '(num, den) := if 0 <=? e then (Zpos m * 2 ^ e, 1) else (Zpos m, 2 ^ (- e)) in
  let '(s, n) := shortest 17 x num den (decimalExp num den) 1 in
  let digits := showZ s in
  let k := Z.of_nat (String.length digits) in
  if (k <=? n) && (n <=? 21) then digits ++ zeros (Z.to_nat (n - k))
  else if (0 <? n) && (n <=? 21)
  then substring 0 (Z.to_nat n) digits ++ "." ++ drop (Z.to_nat n) digits
  else if (-6 <? n) && (n <=? 0) then "0." ++ zeros (Z.to_nat (- n)) ++ digits
  else
    let ex := (if n - 1 <? 0 then "-" else "+") ++ showZ (Z.abs (n - 1)) in
    if k =? 1 then digits ++ "e" ++ ex
    else substring 0 1 digits ++ "." ++ drop 1 digits ++ "e" ++ ex.

(** [String(x)], [`${x}`] and [x + ""] on a Number. *)
Definition toString (x : number) : string :=
  match Prim2SF x with
  | S754_nan => "NaN"
  | S754_zero _ => "0"
  | S754_infinity neg => if neg then "-Infinity" else "Infinity"
  | S754_finite neg m e =>
      (if neg then "-" else "") ++ showPositive (PrimFloat.abs x) m e
  end.

(** [Math.round(x)]: the integer nearest to [x], the larger one of two;
    a result of zero keeps the sign of [x]. *)
Definition Math_round (x : number) : number :=
  match Prim2SF x with
  | S754_finite neg m e =>
      if 0 <=? e then x
      else
        let num := if neg then Zneg m else Zpos m in
        let den := 2 ^ (- e) in
        let r := (2 * num + den) / (2 * den) in
        if r =? 0 then (if neg then neg_zero else zero)
        else SF2Prim (binary_normalize prec emax r 0 false)
  | _ => x
  end.

End JSNumber.

(** ** The document tree of [@xmldom/xmldom] *)

Module Dom.

Definition attribute : Type := string * string.

#[local] Unset Elimination Schemes.

(** An element with its attributes in document order and its children,
    or character data (text, comment, CDATA section, processing
    instruction), which the two passes never look at. *)
Inductive node : Type :=
| Element (tagName : string) (attributes : list attribute) (childNodes : list node)
| CharacterData (data : string).

#[local] Set Elimination Schemes.

(** The children of the Document node. *)
Definition document : Type := list node.

Definition attributesOf (n : node) : list attribute :=
  match n with
  | Element _ attrs _ => attrs
  | CharacterData _ => []
  end.

Definition tagNameOf (n : node) : option string :=
  match n with
  | Element tag _ _ => Some tag
  | CharacterData _ => None
  end.

(** [el.getAttribute(name)]: the value of the attribute, [None] for
    xmldom's [null] (or, before 0.9, its empty string) when there is none. *)
Fixpoint getAttribute (name : string) (attrs : list attribute) : option string :=
  match attrs with
  | (k, v) :: rest => if String.eqb k name then Some v else getAttribute name rest
  | [] => None
  end.

(** [el.setAttribute(name, value)]: the attribute keeps its place when it
    is there, and goes to the end when it is new. *)
Fixpoint setAttribute (name value : string) (attrs : list attribute) : list attribute :=
  match attrs with
  | (k, v) :: rest =>
      if String.eqb k name then (k, value) :: rest
      else (k, v) :: setAttribute name value rest
  | [] => [(name, value)]
  end.

(** The elements named [tag] below (and including) [n], in document order. *)
Fixpoint elementsIn (tag : string) (n : node) : list node :=
  match n with
  | Element t _ children =>
      (if String.eqb t tag then [n] else []) ++ flat_map (elementsIn tag) children
  | CharacterData _ => []
  end.

(** [doc.getElementsByTagName(tag)] *)
Definition getElementsByTagName (tag : string) (doc : document) : list node :=
  flat_map (elementsIn tag) doc.

(** What a loop that calls [setAttribute] on every element of
    [getElementsByTagName(tag)] leaves behind: [f] applied to the
    attributes of each of them, the tree as it was. *)
Fixpoint updateElements (tag : string) (f : list attribute -> list attribute)
    (n : node) : node :=
  match n with
  | Element t attrs children =>
      Element t (if String.eqb t tag then f attrs else attrs)
              (map (updateElements tag f) children)
  | CharacterData _ => n
  end.

(** What [setAttribute] calls on [getElementsByTagName(tag)[0]] leave
    behind: the first element named [tag] gets the attributes [attrs'].
    [None] when [nodes] holds no such element. *)
Fixpoint updateFirstIn (tag : string) (attrs' : list attribute) (n : node)
    : option node :=
  match n with
  | Element t attrs children =>
      if String.eqb t tag then Some (Element t attrs' children)
      else
        option_map (Element t attrs)
          ((fix inList (l : list node) : option (list node) :=
              match l with
              | c :: l' =>
                  match updateFirstIn tag attrs' c with
                  | Some c' => Some (c' :: l')
                  | None => option_map (cons c) (inList l')
                  end
              | [] => None
              end) children)
  | CharacterData _ => None
  end.

Fixpoint updateFirst (tag : string) (attrs' : list attribute) (nodes : list node)
    : option (list node) :=
  match nodes with
  | c :: l' =>
      match updateFirstIn tag attrs' c with
      | Some c' => Some (c' :: l')
      | None => option_map (cons c) (updateFirst tag attrs' l')
      end
  | [] => None
  end.

(** The tree without the attributes of the elements named [tag]. *)
Definition eraseAttributes (tag : string) (n : node) : node :=
  updateElements tag (fun _ => []) n.

End Dom.

(** ** The passes of [render.ts] on what they read

    Each function below is the body of the function of that name in
    [render.ts], from the value its first collaborator hands it (the
    directory entries of [fs.readdir], the document of
    [DOMParser.parseFromString]) to the value it hands to its last one. *)

Module Core.
Import JSString JSNumber Dom.

(** *** [slugify] and [wrapSvg] *)

Fixpoint noDot (s : string) : bool :=
  match s with
  | String c s' => negb (Ascii.eqb c ".") && noDot s'
  | EmptyString => true
  end.

(** [filename.replace(/\.[^.]+$/, "")]: the first position where a dot
    and one or more characters other than a dot reach the end is cut. *)
Fixpoint slugify (filename : string) : string :=
  match filename with
  | String c s' =>
      if Ascii.eqb c "." && negb (isEmpty s') && noDot s' then EmptyString
      else String c (slugify s')
  | EmptyString => EmptyString
  end.

Definition newline : string := String (ascii_of_nat 10) EmptyString.

Definition wrapSvg (svgInner : string) : string := trim svgInner ++ newline.

(** *** [listTexFiles] *)

Inductive fileType : Type := RegularFile | Directory | SymbolicLink | OtherFile.

(** [fs.Dirent] *)
Record Dirent : Type := { name : string; type : fileType }.

Definition isFile (d : Dirent) : bool :=
  match type d with RegularFile => true | _ => false end.

(** [Array.prototype.sort] without a comparator orders strings by their
    code units; the order of the result does not depend on the
    algorithm. *)
Fixpoint insert (x : string) (l : list string) : list string :=
  match l with
  | y :: l' => if String.leb x y then x :: l else y :: insert x l'
  | [] => [x]
  end.

Fixpoint sort (l : list string) : list string :=
  match l with
  | x :: l' => insert x (sort l')
  | [] => []
  end.

Definition isTexFile (d : Dirent) : bool :=
  isFile d && endsWith (toLowerCase (name d)) ".tex".

Definition listTexFiles (items : list Dirent) : list string :=
  sort (map name (filter isTexFile items)).

(** *** [addOutlineToMathJaxSvg] *)

Record OutlineOpts : Type := { stroke : string; strokeWidth : number }.

Definition setOutline (opts : OutlineOpts) (p : list attribute) : list attribute :=
  setAttribute "stroke-linejoin" "round"
    (setAttribute "paint-order" "stroke fill"
       (setAttribute "stroke-width" (toString (strokeWidth opts))
          (setAttribute "stroke" (stroke opts) p))).

(** [fill === "none"] on the result of [getAttribute] *)
Definition isNone (fill : option string) : bool :=
  match fill with
  | Some v => String.eqb v "none"
  | None => false
  end.

(** One turn of the loop over the [path] elements, on the attributes of
    the element [p]. *)
Definition outlinePath (opts : OutlineOpts) (p : list attribute) : list attribute :=
  let fill := getAttribute "fill" p in
  if isNone fill then p else setOutline opts p.

Definition addOutlineToMathJaxSvg (doc : document) (opts : OutlineOpts) : document :=
  map (updateElements "path" (outlinePath opts)) doc.

(** *** [addMarginToSvg] *)

(** [attr && !attr.includes("%")] on the result of [getAttribute] *)
Definition presentWithoutPercent (attr : option string) : bool :=
  match attr with
  | Some s => negb (isEmpty s) && negb (includes s "%")
  | None => false
  end.

(** The text of a template literal slot that holds [getAttribute]'s result *)
Definition showAttr (attr : option string) : string :=
  match attr with
  | Some s => s
  | None => "null"
  end.

Definition valueOf (attr : option string) : string :=
  match attr with
  | Some s => s
  | None => EmptyString
  end.

Definition showViewBox (x y width height : number) : string :=
  toString x ++ " " ++ toString y ++ " " ++ toString width ++ " " ++ toString height.

(** The function from [svgElement.getAttribute("viewBox")] on, over the
    attributes of [svgElement]: the lines it hands to [console.log], and
    the attributes it leaves, [None] where it returns [svgText].  The
    pattern of four parts is the test [parts.length !== 4]; the test for
    [undefined] that follows it never holds of the four numbers that
    [map(Number)] made. *)
Definition expandLogged (attrs : list attribute) (margin : number)
    : list string * option (list attribute) :=
  match getAttribute "viewBox" attrs with
  | None => ([], None)
  | Some viewBox =>
      if isEmpty viewBox then ([], None)
      else
        match map Number (split_whitespace viewBox) with
        | [x; y; width; height] =>
            let log1 := "x: " ++ toString x ++ ", y: " ++ toString y
                        ++ ", width: " ++ toString width
                        ++ ", height: " ++ toString height in
            let newX := (x - margin)%float in
            let newY := (y - margin)%float in
            let newWidth := (width + 2 * margin)%float in
            let newHeight := (height + 2 * margin)%float in
            let log2 := "newX: " ++ toString newX ++ ", newY: " ++ toString newY
                        ++ ", newWidth: " ++ toString newWidth
                        ++ ", newHeight: " ++ toString newHeight in
            let attrs1 :=
              setAttribute "viewBox" (showViewBox newX newY newWidth newHeight) attrs in
            let widthAttr := getAttribute "width" attrs1 in
            let heightAttr := getAttribute "height" attrs1 in
            let log3 := "widthAttr: " ++ showAttr widthAttr
                        ++ ", heightAttr: " ++ showAttr heightAttr in
            if presentWithoutPercent widthAttr then
              let widthValue := parseFloat (valueOf widthAttr) in
              if negb (isNaN widthValue) && (0 <? width)%float && (0 <? height)%float then
                let aspectRatio := (width / height)%float in
                let newWidthValue :=
                  (widthValue + 2 * margin * (widthValue / width))%float in
                let newHeightValue := (newWidthValue / aspectRatio)%float in
                let log4 := "newWidthValue: " ++ toString newWidthValue
                            ++ ", newHeightValue: " ++ toString newHeightValue in
                let attrs2 :=
                  setAttribute "width" (toString newWidthValue ++ "ex") attrs1 in
                if presentWithoutPercent heightAttr
                then ([log1; log2; log3; log4],
                      Some (setAttribute "height" (toString newHeightValue ++ "ex") attrs2))
                else ([log1; log2; log3; log4], Some attrs2)
              else ([log1; log2; log3], Some attrs1)
            else ([log1; log2; log3], Some attrs1)
        | _ => ([], None)
        end
  end.

Definition expandSvgElement (attrs : list attribute) (margin : number)
    : option (list attribute) :=
  snd (expandLogged attrs margin).

(** The attributes of [doc.getElementsByTagName("svg")[0]] *)
Definition svgAttributes (doc : document) : option (list attribute) :=
  match getElementsByTagName "svg" doc with
  | svgElement :: _ => Some (attributesOf svgElement)
  | [] => None
  end.

(** [None] stands for [return svgText], the text the function was given;
    [Some doc'] for [return new XMLSerializer().serializeToString(doc)]
    with the document in the state [doc']. *)
Definition addMarginToSvg (doc : document) (margin : number) : option document :=
  if (margin <=? 0)%float then None
  else
    match getElementsByTagName "svg" doc with
    | svgElement :: _ =>
        match expandSvgElement (attributesOf svgElement) margin with
        | Some attrs' => updateFirst "svg" attrs' doc
        | None => None
        end
    | [] => None
    end.

(** *** The match of [renderOne] *)

(** The shortest front of [s] that ends with the closing tag. *)
Fixpoint upToClose (s : string) : option string :=
  if startsWith s "</svg>" then Some "</svg>"
  else
    match s with
    | String c s' => option_map (String c) (upToClose s')
    | EmptyString => None
    end.

(** [fullHtml.match(/<svg[\s\S]*?<\/svg>/)]: the match at the first
    position that has one; [None] for [null]. *)
Fixpoint matchSvg (fullHtml : string) : option string :=
  match (if startsWith fullHtml "<svg"
         then option_map (append "<svg") (upToClose (drop 4 fullHtml))
         else None) with
  | Some m => Some m
  | None =>
      match fullHtml with
      | String _ s' => matchSvg s'
      | EmptyString => None
      end
  end.

End Core.

(** ** The run: effects and collaborators *)

(** What a call leaves in the world, in the order it happens. *)
Inductive event : Type :=
| Mkdir (dir : string)
| WriteFile (path data : string)
| WritePng (path svg : string) (density : JSNumber.number)
| ConsoleLog (line : string)
| ConsoleWarn (line : string)
| ConsoleError (line : string)
| SetExitCode (code : Z).

(** How an (awaited) call ends. *)
Inductive outcome (A : Type) : Type :=
| Returned (a : A)
| Thrown (error : string).

Arguments Returned {A} a.
Arguments Thrown {A} error.

(** The events of a call and how it ended. *)
Definition IO (A : Type) : Type := list event * outcome A.

Definition ret {A : Type} (a : A) : IO A := ([], Returned a).

Definition bind {A B : Type} (m : IO A) (k : A -> IO B) : IO B :=
  match m with
  | (t, Returned a) => let '(t', r) := k a in ((t ++ t')%list, r)
  | (t, Thrown e) => (t, Thrown e)
  end.

Definition emit (e : event) : IO unit := ([e], Returned tt).

(** A call into a collaborator that leaves the event [e] when it succeeds. *)
Definition perform {A : Type} (e : event) (r : outcome A) : IO A :=
  match r with
  | Returned a => ([e], Returned a)
  | Thrown err => ([], Thrown err)
  end.

(** A call into a collaborator that only reads. *)
Definition ask {A : Type} (r : outcome A) : IO A := ([], r).

Notation "x <- m ;; k" := (bind m (fun x => k))
  (at level 61, m at next level, right associativity).
Notation "m ;;; k" := (bind m (fun _ => k))
  (at level 61, right associativity).

(** [for (const x of xs) body] *)
Fixpoint forEach {A : Type} (body : A -> IO unit) (xs : list A) : IO unit :=
  match xs with
  | x :: xs' => body x ;;; forEach body xs'
  | [] => ret tt
  end.

Definition isWrite (e : event) : bool :=
  match e with
  | WriteFile _ _ | WritePng _ _ _ => true
  | _ => false
  end.

(** What the parser prints while it reads a text: [@xmldom/xmldom]
    reports a warning on [console.warn], an error and a fatal error on
    [console.error]. *)
Inductive diagnostic : Type :=
| ParserWarning (line : string)
| ParserError (line : string).

Definition report (d : diagnostic) : event :=
  match d with
  | ParserWarning line => ConsoleWarn line
  | ParserError line => ConsoleError line
  end.

(** What the run does not compute itself.  The file system answers reads
    as it stands when the run starts: the run reads the directory once,
    before it writes, and it writes [.svg] and [.png] files only, never a
    file it reads later. *)
Record Environment : Type := {
  (** [new DOMParser().parseFromString(text, "image/svg+xml")]: what the
      parser prints, and the document, or the error it throws on a text
      that is not well-formed ([ParseError]) *)
  parseFromString : string -> list diagnostic * outcome Dom.document;
  (** [new XMLSerializer().serializeToString(doc)] *)
  serializeToString : Dom.document -> string;
  (** [adaptor.outerHTML(html.convert(latex, { display }))], with the
      [adaptor] and [html] of [createMathJax] *)
  convert : string -> bool -> outcome string;
  (** [sharp(Buffer.from(svg), { density }).png().toFile(pngPath)] *)
  toFile : string -> JSNumber.number -> string -> outcome unit;
  path_resolve : string -> string;
  path_join : string -> string -> string;
  (** [path.relative(process.cwd(), p)] *)
  path_relative_cwd : string -> string;
  (** [fs.mkdir(dir, { recursive: true })] *)
  fs_mkdir : string -> outcome unit;
  (** [fs.readdir(dir, { withFileTypes: true })] *)
  fs_readdir : string -> outcome (list Core.Dirent);
  (** [fs.readFile(path, "utf8")] *)
  fs_readFile : string -> outcome string;
  (** [fs.writeFile(path, data, "utf8")] *)
  fs_writeFile : string -> string -> outcome unit
}.

Record RenderConfig : Type := {
  equationsDir : string;
  outDir : string;
  display : bool;
  pngScale : option JSNumber.number;
  margin : option JSNumber.number
}.

Definition BRIGHT_OUTLINE_STROKE_COLOR : string := "#ddd".
Definition BRIGHT_OUTLINE_STROKE_WIDTH : JSNumber.number := 45%float.

Section Program.
Import JSString JSNumber Dom.

Variable env : Environment.

Definition ensureDir (dir : string) : IO unit :=
  perform (Mkdir dir) (fs_mkdir env dir).

Definition listTexFiles (dir : string) : IO (list string) :=
  items <- ask (fs_readdir env dir) ;;
  ret (Core.listTexFiles items).

(** [new DOMParser().parseFromString(svgText, "image/svg+xml")] in the
    run. *)
Definition parseDocument (svgText : string) : IO document :=
  (map report (fst (parseFromString env svgText)), snd (parseFromString env svgText)).

Definition addOutlineToMathJaxSvg (svgText : string) (opts : Core.OutlineOpts)
    : IO string :=
  doc <- parseDocument svgText ;;
  ret (serializeToString env (Core.addOutlineToMathJaxSvg doc opts)).

Definition addMarginToSvg (svgText : string) (margin : number) : IO string :=
  if (margin <=? 0)%float then ret svgText
  else
    doc <- parseDocument svgText ;;
    match getElementsByTagName "svg" doc with
    | svgElement :: _ =>
        let '(lines, attrs) := Core.expandLogged (attributesOf svgElement) margin in
        forEach (fun line => emit (ConsoleLog line)) lines ;;;
        match attrs with
        | Some attrs' =>
            match updateFirst "svg" attrs' doc with
            | Some doc' => ret (serializeToString env doc')
            | None => ret svgText
            end
        | None => ret svgText
        end
    | [] => ret svgText
    end.

Definition renderOne (latex : string) (display : bool) : IO string :=
  fullHtml <- ask (convert env latex display) ;;
  match Core.matchSvg fullHtml with
  | None => ([], Thrown "No SVG element found in MathJax output")
  | Some svgText =>
      svgWithOutline <-
        addOutlineToMathJaxSvg svgText
          {| Core.stroke := BRIGHT_OUTLINE_STROKE_COLOR;
             Core.strokeWidth := BRIGHT_OUTLINE_STROKE_WIDTH |} ;;
      ret (Core.wrapSvg svgWithOutline)
  end.

(** The body of the loop of [main] for one [file]. *)
Definition processFile (cfg : RenderConfig) (equationsDir outDir file : string)
    : IO unit :=
  let inPath := path_join env equationsDir file in
  content <- ask (fs_readFile env inPath) ;;
  let latex := trim content in
  if isEmpty latex then emit (ConsoleWarn ("Skipping empty file: " ++ file))
  else
    svg0 <- renderOne latex (display cfg) ;;
    let margin := match margin cfg with Some m => m | None => 0%float end in
    svg <- (if (0 <? margin)%float then addMarginToSvg svg0 margin else ret svg0) ;;
    let base := Core.slugify file in
    let svgPath := path_join env outDir (base ++ ".svg") in
    perform (WriteFile svgPath svg) (fs_writeFile env svgPath svg) ;;;
    emit (ConsoleLog ("Wrote " ++ path_relative_cwd env svgPath
                      ++ (if (0 <? margin)%float
                          then " (margin: " ++ toString margin ++ ")"
                          else ""))) ;;;
    let pngPath := path_join env outDir (base ++ ".png") in
    let scale := match pngScale cfg with Some s => s | None => 1%float end in
    let density := Math_round (72 * scale)%float in
    perform (WritePng pngPath svg density) (toFile env svg density pngPath) ;;;
    emit (ConsoleLog ("Wrote " ++ path_relative_cwd env pngPath
                      ++ " (scale: " ++ toString scale ++ "x"
                      ++ (if (0 <? margin)%float
                          then ", margin: " ++ toString margin
                          else "")
                      ++ ")")).

Definition main (cfg : RenderConfig) : IO unit :=
  let equationsDir := path_resolve env (equationsDir cfg) in
  let outDir := path_resolve env (outDir cfg) in
  ensureDir outDir ;;;
  files <- listTexFiles equationsDir ;;
  if Nat.eqb (List.length files) 0 then
    emit (ConsoleError ("No .tex files found in " ++ equationsDir)) ;;;
    emit (SetExitCode 1)
  else
    forEach (processFile cfg equationsDir outDir) files.

End Program.

(** ** The vocabulary of the statements *)

Module Vocabulary.
Import JSString JSNumber Dom Core.

(** Below a node, either no element is named [tag] and there is nothing
    to update, or the first one gets the new attributes and every other
    element stays as it is. *)
Definition firstUpdated (tag : string) (attrs' : list attribute)
    (before : list node) (after : option (list node)) : Prop :=
  (before = [] /\ after = None) \/
  (exists attrs children rest,
      before = Element tag attrs children :: rest /\
      exists nodes', after = Some nodes' /\
        getElementsByTagName tag nodes' = Element tag attrs' children :: rest).

Definition firstUpdatedIn (tag : string) (attrs' : list attribute) (n : node) : Prop :=
  firstUpdated tag attrs' (elementsIn tag n)
    (option_map (fun n' => [n']) (updateFirstIn tag attrs' n)).

(** The attributes the pass leaves when the view box has four parts. *)
Definition expanded (attrs : list attribute) (m x y w h : number) : list attribute :=
  let attrs1 :=
    setAttribute "viewBox"
      (showViewBox (x - m) (y - m) (w + 2 * m) (h + 2 * m))%float attrs in
  let widthAttr := getAttribute "width" attrs in
  let heightAttr := getAttribute "height" attrs in
  if presentWithoutPercent widthAttr
     && (negb (isNaN (parseFloat (valueOf widthAttr))) && (0 <? w)%float && (0 <? h)%float)
  then
    let newWidthValue :=
      (parseFloat (valueOf widthAttr) + 2 * m * (parseFloat (valueOf widthAttr) / w))%float in
    let attrs2 := setAttribute "width" (toString newWidthValue ++ "ex") attrs1 in
    if presentWithoutPercent heightAttr
    then setAttribute "height" (toString (newWidthValue / (w / h))%float ++ "ex") attrs2
    else attrs2
  else attrs1.

(** The two documents of the examples. *)
Definition boxOnly : document :=
  [Element "svg" [("viewBox", "0 0 100 50")] []].

Definition fourWords : document :=
  [Element "svg" [("viewBox", "a b c d")] []].

(** The documents of the examples with a declared size. *)
Definition sized (viewBox width height : string) : document :=
  [Element "svg" [("viewBox", viewBox); ("width", width); ("height", height)] []].

Definition widthOnly (viewBox width : string) : document :=
  [Element "svg" [("viewBox", viewBox); ("width", width)] []].

(** The bounding box in the words of the spec: the first [svg] element
    has a [viewBox] of exactly four components, each of them a number. *)
Definition parseableViewBox (doc : document) : bool :=
  match svgAttributes doc with
  | Some attrs =>
      match getAttribute "viewBox" attrs with
      | Some viewBox =>
          let parts := map Number (split_whitespace viewBox) in
          Nat.eqb (List.length parts) 4 && forallb (fun x => negb (isNaN x)) parts
      | None => false
      end
  | None => false
  end.

(** C3 in the words of the spec: the declared width becomes [W + 2 m (W / w)]
    and a declared height without a percent sign becomes the new width
    times [h / w], each written with [ex]. *)
Definition declaredSizeAsSpecified (doc : document) (m : number) : Prop :=
  forall (attrs : list attribute) (viewBox widthAttr : string) (x y w h : number),
    (0 <? m)%float = true ->
    svgAttributes doc = Some attrs ->
    getAttribute "viewBox" attrs = Some viewBox ->
    map Number (split_whitespace viewBox) = [x; y; w; h] ->
    (0 <? w)%float = true ->
    (0 <? h)%float = true ->
    getAttribute "width" attrs = Some widthAttr ->
    includes widthAttr "%" = false ->
    isNaN (parseFloat widthAttr) = false ->
    let W := parseFloat widthAttr in
    let newWidth := (W + 2 * m * (W / w))%float in
    exists doc' attrs',
      addMarginToSvg doc m = Some doc' /\
      svgAttributes doc' = Some attrs' /\
      getAttribute "width" attrs' = Some (toString newWidth ++ "ex") /\
      forall heightAttr,
        getAttribute "height" attrs = Some heightAttr ->
        includes heightAttr "%" = false ->
        getAttribute "height" attrs' = Some (toString (newWidth * h / w)%float ++ "ex").

(** What the pass does to one [path] element [p], read off the element
    [p'] that stands in its place afterwards. *)
Definition outlined (opts : OutlineOpts) (p p' : node) : Prop :=
  tagNameOf p = Some "path" /\
  tagNameOf p' = Some "path" /\
  (getAttribute "fill" (attributesOf p) = Some "none" ->
   attributesOf p' = attributesOf p) /\
  (getAttribute "fill" (attributesOf p) <> Some "none" ->
   getAttribute "stroke" (attributesOf p') = Some (stroke opts) /\
   getAttribute "stroke-width" (attributesOf p') = Some (toString (strokeWidth opts)) /\
   getAttribute "paint-order" (attributesOf p') = Some "stroke fill" /\
   getAttribute "stroke-linejoin" (attributesOf p') = Some "round").

(** The name is a stem followed by [.tex] in some mix of cases. *)
Definition hasTexExtension (n : string) : Prop :=
  exists stem ext, n = stem ++ ext /\ toLowerCase ext = ".tex".

(** The order of [sort]: code unit by code unit, a proper prefix first. *)
Definition le (a b : string) : Prop := String.leb a b = true.

(** The configuration [render.ts] calls [main] with. *)
Definition defaultConfig : RenderConfig :=
  {| equationsDir := "equations";
     outDir := "out";
     display := true;
     pngScale := Some 10%float;
     margin := Some 20%float |}.

(** A machine with the directory [listing] and the files [content], where
    MathJax and sharp are not installed. *)
Definition offline (listing : list Dirent) (content : string -> outcome string)
    : Environment :=
  {| parseFromString := fun _ => ([], Returned []);
     serializeToString := fun _ => EmptyString;
     convert := fun _ _ => Thrown "MathJax is not installed";
     toFile := fun _ _ _ => Thrown "sharp is not installed";
     path_resolve := fun p => "/work/" ++ p;
     path_join := fun a b => a ++ "/" ++ b;
     path_relative_cwd := fun p => drop 6 p;
     fs_mkdir := fun _ => Returned tt;
     fs_readdir := fun _ => Returned listing;
     fs_readFile := content;
     fs_writeFile := fun _ _ => Returned tt |}.

End Vocabulary.

(** ** More vocabulary: the run *)

Module RunVocabulary.
Import JSString JSNumber Dom Core.

(** What the outline pass keeps of one [path] element [p], read off the
    element [p'] in its place. *)
Definition kept (opts : OutlineOpts) (p p' : node) : Prop :=
  (forall k,
      k <> "stroke" -> k <> "stroke-width" ->
      k <> "paint-order" -> k <> "stroke-linejoin" ->
      getAttribute k (attributesOf p') = getAttribute k (attributesOf p)) /\
  (getAttribute "fill" (attributesOf p) <> Some "none" ->
   getAttribute "stroke" (attributesOf p) = None ->
   getAttribute "stroke-width" (attributesOf p) = None ->
   getAttribute "paint-order" (attributesOf p) = None ->
   getAttribute "stroke-linejoin" (attributesOf p) = None ->
   attributesOf p'
   = (attributesOf p ++ [("stroke", stroke opts);
                         ("stroke-width", toString (strokeWidth opts));
                         ("paint-order", "stroke fill");
                         ("stroke-linejoin", "round")])%list).

(** Every character of [s] is white space. *)
Fixpoint allWhiteSpace (s : string) : bool :=
  match s with
  | String c s' => isWhiteSpace c && allWhiteSpace s'
  | EmptyString => true
  end.

Definition isLog (e : event) : bool :=
  match e with
  | ConsoleLog _ => true
  | _ => false
  end.

(** The parser returns a document for [text]. *)
Definition parses (env : Environment) (text : string) : Prop :=
  exists printed doc, parseFromString env text = (printed, Returned doc).

(** The text the margin pass of the run returns from the document [doc]
    that the parser made of [svgText]. *)
Definition marginTextOf (env : Environment) (svgText : string) (doc : document)
    (m : number) : string :=
  match addMarginToSvg doc m with
  | Some doc' => serializeToString env doc'
  | None => svgText
  end.

(** The text the margin pass of the run returns, where its parser
    returns. *)
Definition marginText (env : Environment) (svgText : string) (m : number) : string :=
  match snd (parseFromString env svgText) with
  | Returned doc => marginTextOf env svgText doc m
  | Thrown _ => svgText
  end.

(** The lines the margin pass of the run hands to [console.log] for the
    document [doc]. *)
Definition marginLinesOf (doc : document) (m : number) : list string :=
  match getElementsByTagName "svg" doc with
  | svgElement :: _ => fst (expandLogged (attributesOf svgElement) m)
  | [] => []
  end.

(** The events of the margin pass of the run when the margin is
    positive: what the parser prints, then the lines of the pass. *)
Definition marginEvents (env : Environment) (svgText : string) (m : number)
    : list event :=
  (map report (fst (parseFromString env svgText))
   ++ match snd (parseFromString env svgText) with
      | Returned doc => map ConsoleLog (marginLinesOf doc m)
      | Thrown _ => []
      end)%list.

(** An event that the turn of the loop for [file] may leave: a line on
    the console, the vector file or the raster file named after [file] in
    [outDir]. *)
Definition outputOf (env : Environment) (outDir file : string) (e : event) : Prop :=
  match e with
  | WriteFile path _ => path = path_join env outDir (slugify file ++ ".svg")
  | WritePng path _ _ => path = path_join env outDir (slugify file ++ ".png")
  | ConsoleLog _ | ConsoleWarn _ | ConsoleError _ => True
  | Mkdir _ | SetExitCode _ => False
  end.

(** The style [renderOne] outlines with. *)
Definition outlineOfRun : OutlineOpts :=
  {| stroke := BRIGHT_OUTLINE_STROKE_COLOR;
     strokeWidth := BRIGHT_OUTLINE_STROKE_WIDTH |}.

(** What [renderOne] makes of the piece of text it cut out: what the
    parser prints on it, and then the error the parser throws, or the
    outlined, serialized and wrapped document. *)
Definition outlinedPiece (env : Environment) (piece : string) : IO string :=
  match parseFromString env piece with
  | (printed, Returned doc) =>
      (map report printed,
       Returned (wrapSvg (serializeToString env
                            (addOutlineToMathJaxSvg doc outlineOfRun))))
  | (printed, Thrown e) => (map report printed, Thrown e)
  end.

(** The small drawing of the examples. *)
Definition drawing : document :=
  [Element "svg" [("viewBox", "0 0 100 50")] [Element "path" [("d", "M0 0")] []]].

(** A machine for the examples: its parser, its typesetter, its
    rasterizer and its file system are given, and a drawing is written as
    its [viewBox]. *)
Definition machineWith
    (parser : string -> list diagnostic * outcome document)
    (typeset : string -> bool -> outcome string)
    (raster : string -> number -> string -> outcome unit)
    (mkdir : string -> outcome unit)
    (readdir : string -> outcome (list Dirent))
    (readFile : string -> outcome string) : Environment :=
  {| parseFromString := parser;
     serializeToString := fun doc =>
       "<svg viewBox='"
       ++ valueOf (match svgAttributes doc with
                   | Some attrs => getAttribute "viewBox" attrs
                   | None => None
                   end)
       ++ "'/>";
     convert := typeset;
     toFile := raster;
     path_resolve := fun p => "/work/" ++ p;
     path_join := fun a b => a ++ "/" ++ b;
     path_relative_cwd := fun p => drop 6 p;
     fs_mkdir := mkdir;
     fs_readdir := readdir;
     fs_readFile := readFile;
     fs_writeFile := fun _ _ => Returned tt |}.

(** The machine where every text parses, with nothing printed, to the small
    drawing. *)
Definition machine
    (typeset : string -> bool -> outcome string)
    (raster : string -> number -> string -> outcome unit)
    (mkdir : string -> outcome unit)
    (readdir : string -> outcome (list Dirent))
    (readFile : string -> outcome string) : Environment :=
  machineWith (fun _ => ([], Returned drawing)) typeset raster mkdir readdir readFile.

(** How often [pattern] starts in [s]. *)
Fixpoint occurrences (pattern s : string) : nat :=
  match s with
  | String _ s' =>
      ((if startsWith s pattern then 1 else 0) + occurrences pattern s')%nat
  | EmptyString => 0%nat
  end.

(** A parser that takes a text where [<svg] starts as often as the
    closing tag, and on any other text prints one line on
    [console.error] and throws. *)
Definition pairing (text : string) : list diagnostic * outcome document :=
  if Nat.eqb (occurrences "<svg" text) (occurrences "</svg>" text)
  then ([], Returned drawing)
  else ([ParserError "[xmldom fatalError] unclosed xml tag(s): svg"],
        Thrown "ParseError: unclosed xml tag(s): svg").

(** A directory with the one file [euler.tex]. *)
Definition oneEquation : list Dirent := [ {| name := "euler.tex"; type := RegularFile |} ].

(** A working machine with that directory. *)
Definition studio : Environment :=
  machine (fun latex _ => Returned ("<mjx-container><svg>" ++ latex ++ "</svg></mjx-container>"))
          (fun _ _ _ => Returned tt)
          (fun _ => Returned tt)
          (fun _ => Returned oneEquation)
          (fun _ => Returned "e^{i\pi} + 1 = 0").

(** The same machine with a rasterizer that fails. *)
Definition noRasterizer : Environment :=
  machine (fun latex _ => Returned ("<mjx-container><svg>" ++ latex ++ "</svg></mjx-container>"))
          (fun _ _ _ => Thrown "sharp: input buffer contains unsupported image format")
          (fun _ => Returned tt)
          (fun _ => Returned oneEquation)
          (fun _ => Returned "e^{i\pi} + 1 = 0").

(** The same machine without the source directory. *)
Definition noDirectory : Environment :=
  machine (fun latex _ => Returned ("<mjx-container><svg>" ++ latex ++ "</svg></mjx-container>"))
          (fun _ _ _ => Returned tt)
          (fun _ => Returned tt)
          (fun _ => Thrown "ENOENT: no such file or directory, scandir")
          (fun _ => Thrown "ENOENT: no such file or directory, open").

(** A machine with the parser [pairing] and a typesetter that puts one
    [svg] element into another. *)
Definition nesting : Environment :=
  machineWith pairing
          (fun latex _ =>
             Returned ("<mjx-container><svg><svg>" ++ latex ++ "</svg></svg></mjx-container>"))
          (fun _ _ _ => Returned tt)
          (fun _ => Returned tt)
          (fun _ => Returned oneEquation)
          (fun _ => Returned "e^{i\pi} + 1 = 0").

(** A directory with two equations. *)
Definition twoEquations : list Dirent :=
  [ {| name := "b.tex"; type := RegularFile |};
    {| name := "a.tex"; type := RegularFile |} ].

End RunVocabulary.

(** * Properties *)

(** ** The model on small inputs *)

Module ModelChecks.
Import JSString JSNumber Dom Core.

Example split_whitespace_runs :
  split_whitespace "0 0  100 50" = ["0"; "0"; "100"; "50"] /\
  split_whitespace " 0 0 100" = [""; "0"; "0"; "100"] /\
  split_whitespace "0,0,100,50" = ["0,0,100,50"].
Proof. repeat split; reflexivity. Qed.

Example Number_reads :
  map (fun s => toString (Number s))
      ["100"; "-20"; "  1.5 "; "1e3"; "0x1F"; ""; "a"; "1px"; "Infinity"; "."]
  = ["100"; "-20"; "1.5"; "1000"; "31"; "0"; "NaN"; "NaN"; "Infinity"; "NaN"].
Proof. vm_compute. reflexivity. Qed.

Example parseFloat_reads :
  map (fun s => toString (parseFloat s))
      ["10ex"; "10pt"; " .5em"; "1e"; "100%"; "-3.25e2x"; "auto"; ""]
  = ["10"; "10"; "0.5"; "1"; "100"; "-325"; "NaN"; "NaN"].
Proof. vm_compute. reflexivity. Qed.

Example toString_writes :
  map toString
      [Number "0.1" + Number "0.2"; 1 / 3; 1e21; 1 / 1e7; Number "123456789012345680000";
       0 / 0; -(1 / 0); -0; 14; 43 / (3 / 7)]%float
  = ["0.30000000000000004"; "0.3333333333333333"; "1e+21"; "1e-7";
     "123456789012345680000"; "NaN"; "-Infinity"; "0"; "14"; "100.33333333333334"].
Proof. vm_compute. reflexivity. Qed.

Example Math_round_rounds :
  map (fun x => toString (Math_round x)) [72 * 10; 2.5; -2.5; 0.5; 1 / 3; 72 * 1.5]%float
  = ["720"; "3"; "-2"; "1"; "0"; "108"].
Proof. vm_compute. reflexivity. Qed.

Example slugify_cuts :
  map slugify ["euler.tex"; "a.b.tex"; "README"; ".tex"; "a."; "a..b"]
  = ["euler"; "a.b"; "README"; ""; "a."; "a."].
Proof. reflexivity. Qed.

Example matchSvg_finds :
  matchSvg "<mjx-container><svg width='1ex'><g/></svg></mjx-container>"
    = Some "<svg width='1ex'><g/></svg>" /\
  matchSvg "<svg><svg></svg></svg>" = Some "<svg><svg></svg>" /\
  matchSvg "<mjx-container></mjx-container>" = None.
Proof. repeat split; reflexivity. Qed.

Example outline_then_margin :
  let doc :=
    [Element "svg" [("viewBox", "0 -750 1000 1000"); ("width", "2.262ex"); ("height", "2.262ex")]
       [Element "g" [("stroke", "currentColor"); ("fill", "currentColor")]
          [Element "path" [("d", "M0 0"); ("fill", "none")] [];
           Element "path" [("d", "M1 1")] []]]] in
  option_map (fun d => (svgAttributes d, map attributesOf (getElementsByTagName "path" d)))
    (addMarginToSvg
       (addOutlineToMathJaxSvg doc {| stroke := "#ddd"; strokeWidth := 45%float |})
       20%float)
  = Some (Some [("viewBox", "-20 -770 1040 1040");
                ("width", "2.35248ex"); ("height", "2.35248ex")],
          [[("d", "M0 0"); ("fill", "none")];
           [("d", "M1 1"); ("stroke", "#ddd"); ("stroke-width", "45");
            ("paint-order", "stroke fill"); ("stroke-linejoin", "round")]]).
Proof. vm_compute. reflexivity. Qed.

End ModelChecks.

(** ** Comparisons with zero *)

Module NumberFacts.
Import JSNumber.

Lemma Prim2SF_zero : Prim2SF 0%float = S754_zero false.
Proof. reflexivity. Qed.

(** [0 < m] and [m <= 0] exclude each other (and both fail on NaN). *)
Lemma positive_not_le_zero (m : number) :
  (0 <? m)%float = true -> (m <=? 0)%float = false.
Proof.
  rewrite ltb_spec, leb_spec, Prim2SF_zero.
  unfold SFltb, SFleb.
  destruct (Prim2SF m) as [ [] | [] | | [] mm em ]; simpl; congruence.
Qed.

Lemma le_zero_not_positive (m : number) :
  (m <=? 0)%float = true -> (0 <? m)%float = false.
Proof.
  intro H. destruct (0 <? m)%float eqn:E; [|reflexivity].
  apply positive_not_le_zero in E. congruence.
Qed.

End NumberFacts.

(** ** Attribute lists *)

Module AttributeFacts.
Import Dom.

Lemma get_set_same (k v : string) (attrs : list attribute) :
  getAttribute k (setAttribute k v attrs) = Some v.
Proof.
  induction attrs as [| [k' v'] rest IH]; simpl.
  - now rewrite String.eqb_refl.
  - destruct (String.eqb k' k) eqn:E; simpl; rewrite E; auto.
Qed.

Lemma get_set_other (k k' v : string) (attrs : list attribute) :
  k <> k' -> getAttribute k (setAttribute k' v attrs) = getAttribute k attrs.
Proof.
  intro Hne.
  induction attrs as [| [k0 v0] rest IH]; simpl.
  - destruct (String.eqb_spec k' k); congruence.
  - destruct (String.eqb_spec k0 k') as [-> | Hk]; simpl.
    + destruct (String.eqb_spec k' k); congruence.
    + now rewrite IH.
Qed.

(** Setting an attribute to the value it has changes nothing. *)
Lemma set_same_value (k v : string) (attrs : list attribute) :
  getAttribute k attrs = Some v -> setAttribute k v attrs = attrs.
Proof.
  induction attrs as [| [k0 v0] rest IH]; simpl; [discriminate|].
  destruct (String.eqb_spec k0 k) as [-> | Hk]; intro H.
  - injection H as ->. reflexivity.
  - now rewrite IH.
Qed.

End AttributeFacts.

(** ** The tree *)

Module TreeFacts.
Import Dom Vocabulary.

(** Induction on a node with the hypothesis for each of its children. *)
Lemma node_ind (P : node -> Prop) :
  (forall tag attrs children, Forall P children -> P (Element tag attrs children)) ->
  (forall data, P (CharacterData data)) ->
  forall n, P n.
Proof.
  intros HE HC.
  fix IH 1.
  intros [tag attrs children | data]; [|apply HC].
  apply HE.
  induction children as [| c rest IHrest]; constructor; [apply IH | exact IHrest].
Qed.

Lemma updateFirstIn_children (tag : string) (attrs' : list attribute)
    (t : string) (attrs : list attribute) (children : list node) :
  updateFirstIn tag attrs' (Element t attrs children) =
  if String.eqb t tag then Some (Element t attrs' children)
  else option_map (Element t attrs) (updateFirst tag attrs' children).
Proof.
  simpl. destruct (String.eqb t tag); [reflexivity|].
  f_equal. induction children as [| c rest IH]; simpl; [reflexivity|].
  destruct (updateFirstIn tag attrs' c); [reflexivity|]. now rewrite IH.
Qed.

Lemma updateFirst_of_nodes (tag : string) (attrs' : list attribute) (nodes : list node) :
  Forall (firstUpdatedIn tag attrs') nodes ->
  firstUpdated tag attrs' (getElementsByTagName tag nodes) (updateFirst tag attrs' nodes).
Proof.
  unfold getElementsByTagName.
  induction 1 as [| c rest Hc _ IH]; [left; split; reflexivity|].
  cbn [flat_map updateFirst].
  destruct Hc as [[Hnone Hup] | (a & ch & r & Hsome & n' & Hup & Hget)].
  - destruct (updateFirstIn tag attrs' c); [discriminate|]. rewrite Hnone. cbn [app].
    destruct IH as [[Hn Hu] | (a & ch & r & Hs & nodes' & Hu & Hg)].
    + left. rewrite Hn, Hu. split; reflexivity.
    + right. exists a, ch, r. split; [exact Hs|].
      rewrite Hu. eexists; split; [reflexivity|].
      unfold getElementsByTagName in *. cbn [flat_map]. now rewrite Hnone.
  - destruct (updateFirstIn tag attrs' c) as [c'|]; [|discriminate].
    injection Hup as <-. right. rewrite Hsome.
    exists a, ch, (r ++ flat_map (elementsIn tag) rest)%list.
    split; [reflexivity|]. eexists; split; [reflexivity|].
    unfold getElementsByTagName in *. cbn [flat_map] in *.
    rewrite app_nil_r in Hget. now rewrite Hget.
Qed.

Lemma updateFirstIn_spec (tag : string) (attrs' : list attribute) (n : node) :
  firstUpdatedIn tag attrs' n.
Proof.
  induction n as [t attrs children IH | data] using node_ind.
  2:{ left. split; reflexivity. }
  unfold firstUpdatedIn. rewrite updateFirstIn_children. cbn [elementsIn].
  destruct (String.eqb_spec t tag) as [-> | Hne].
  - right. exists attrs, children, (flat_map (elementsIn tag) children).
    split; [reflexivity|]. eexists; split; [reflexivity|].
    unfold getElementsByTagName. cbn [flat_map elementsIn]. rewrite String.eqb_refl.
    now rewrite app_nil_r.
  - cbn [app].
    destruct (updateFirst_of_nodes tag attrs' children IH)
      as [[Hn Hu] | (a & ch & r & Hs & nodes' & Hu & Hg)];
      unfold getElementsByTagName in *.
    + left. rewrite Hn, Hu. split; reflexivity.
    + right. exists a, ch, r. split; [exact Hs|]. rewrite Hu. cbn [option_map].
      eexists; split; [reflexivity|].
      unfold getElementsByTagName. cbn [flat_map elementsIn].
      destruct (String.eqb_spec t tag); [contradiction|].
      cbn [app]. now rewrite app_nil_r.
Qed.

Lemma updateFirst_spec (tag : string) (attrs' : list attribute) (doc : document) :
  firstUpdated tag attrs' (getElementsByTagName tag doc) (updateFirst tag attrs' doc).
Proof.
  apply updateFirst_of_nodes, Forall_forall. intros n _. apply updateFirstIn_spec.
Qed.

End TreeFacts.

(** ** The margin pass *)

Module MarginFacts.
Import JSString JSNumber Dom Core Vocabulary NumberFacts AttributeFacts TreeFacts.

Lemma parseFloat_empty : isNaN (parseFloat EmptyString) = true.
Proof. reflexivity. Qed.

#[local] Opaque toString Number parseFloat.

(** With a positive margin the pass does to the document what
    [expandSvgElement] does to the attributes of its first [svg] element. *)
Lemma addMarginToSvg_element (doc : document) (m : number) (attrs : list attribute) :
  (m <=? 0)%float = false ->
  svgAttributes doc = Some attrs ->
  match expandSvgElement attrs m with
  | Some attrs' =>
      exists doc', addMarginToSvg doc m = Some doc' /\ svgAttributes doc' = Some attrs'
  | None => addMarginToSvg doc m = None
  end.
Proof.
  intros Hm Hsvg. unfold addMarginToSvg, svgAttributes in *. rewrite Hm.
  destruct (getElementsByTagName "svg" doc) as [| e rest] eqn:Hels; [discriminate|].
  injection Hsvg as Hattrs. rewrite Hattrs.
  destruct (expandSvgElement attrs m) as [attrs'|]; [|reflexivity].
  destruct (updateFirst_spec "svg" attrs' doc)
    as [[Hn _] | (a & ch & r & Hs & doc' & Hu & Hg)]; [congruence|].
  exists doc'. split; [exact Hu|]. now rewrite Hg.
Qed.

Lemma addMarginToSvg_inv (doc doc' : document) (m : number) :
  addMarginToSvg doc m = Some doc' ->
  (m <=? 0)%float = false /\
  exists attrs attrs',
    svgAttributes doc = Some attrs /\
    expandSvgElement attrs m = Some attrs' /\
    svgAttributes doc' = Some attrs'.
Proof.
  intro H.
  destruct (m <=? 0)%float eqn:Hm; [unfold addMarginToSvg in H; now rewrite Hm in H|].
  split; [reflexivity|].
  destruct (svgAttributes doc) as [attrs|] eqn:Hsvg.
  - pose proof (addMarginToSvg_element doc m attrs Hm Hsvg) as He.
    destruct (expandSvgElement attrs m) as [attrs'|] eqn:Hex; [|congruence].
    destruct He as (d & Hd & Hd'). exists attrs, attrs'.
    repeat split; congruence.
  - unfold addMarginToSvg, svgAttributes in *. rewrite Hm in H.
    destruct (getElementsByTagName "svg" doc); discriminate.
Qed.

(** A view box of four parts is not the empty text. *)
Lemma four_parts_not_empty (viewBox : string) (x y w h : number) :
  map Number (split_whitespace viewBox) = [x; y; w; h] -> isEmpty viewBox = false.
Proof. destruct viewBox; [discriminate | reflexivity]. Qed.

Lemma expandSvgElement_four_parts (attrs : list attribute) (m : number)
    (viewBox : string) (x y w h : number) :
  getAttribute "viewBox" attrs = Some viewBox ->
  map Number (split_whitespace viewBox) = [x; y; w; h] ->
  expandSvgElement attrs m = Some (expanded attrs m x y w h).
Proof.
  intros Hvb Hparts.
  unfold expandSvgElement, expandLogged, expanded.
  rewrite Hvb, (four_parts_not_empty _ _ _ _ _ Hparts), Hparts. cbv zeta.
  rewrite !(get_set_other _ "viewBox") by discriminate.
  destruct (presentWithoutPercent (getAttribute "width" attrs)); [|reflexivity].
  cbn [andb].
  destruct (negb (isNaN (parseFloat (valueOf (getAttribute "width" attrs))))
            && (0 <? w)%float && (0 <? h)%float); [|reflexivity].
  destruct (presentWithoutPercent (getAttribute "height" attrs)); reflexivity.
Qed.

Lemma expanded_viewBox (attrs : list attribute) (m x y w h : number) :
  getAttribute "viewBox" (expanded attrs m x y w h) =
  Some (showViewBox (x - m) (y - m) (w + 2 * m) (h + 2 * m))%float.
Proof.
  unfold expanded. cbv zeta.
  repeat match goal with |- context [if ?c then _ else _] => destruct c end;
    rewrite ?(get_set_other "viewBox" "height"), ?(get_set_other "viewBox" "width")
      by discriminate;
    apply get_set_same.
Qed.

(** C1: with a margin [m > 0], a document whose first [svg] element has a
    [viewBox] of four parts that read as the numbers [x], [y], [w], [h]
    comes back with the [viewBox] [x - m], [y - m], [w + 2 m], [h + 2 m];
    [0 0 100 50] with margin [20] becomes [-20 -20 140 90]. *)
Theorem addMarginToSvg_expands_viewBox :
  (forall (doc : document) (m : number) (attrs : list attribute)
          (viewBox : string) (x y w h : number),
      (0 <? m)%float = true ->
      svgAttributes doc = Some attrs ->
      getAttribute "viewBox" attrs = Some viewBox ->
      map Number (split_whitespace viewBox) = [x; y; w; h] ->
      exists doc' attrs',
        addMarginToSvg doc m = Some doc' /\
        svgAttributes doc' = Some attrs' /\
        getAttribute "viewBox" attrs' =
          Some (showViewBox (x - m) (y - m) (w + 2 * m) (h + 2 * m))%float) /\
  addMarginToSvg boxOnly 20%float =
    Some [Element "svg" [("viewBox", "-20 -20 140 90")] []].
Proof.
  split; [|vm_compute; reflexivity].
  intros doc m attrs viewBox x y w h Hm Hsvg Hvb Hparts.
  pose proof (addMarginToSvg_element doc m attrs (positive_not_le_zero m Hm) Hsvg) as H.
  rewrite (expandSvgElement_four_parts attrs m viewBox x y w h Hvb Hparts) in H.
  destruct H as (doc' & Hdoc & Hsvg').
  exists doc', (expanded attrs m x y w h).
  repeat split; [exact Hdoc | exact Hsvg' | apply expanded_viewBox].
Qed.

Lemma addMarginToSvg_expands_viewBox_witness :
  exists doc' attrs',
    addMarginToSvg boxOnly 20%float = Some doc' /\
    svgAttributes doc' = Some attrs' /\
    getAttribute "viewBox" attrs' =
      Some (showViewBox (0 - 20) (0 - 20) (100 + 2 * 20) (50 + 2 * 20))%float.
Proof.
  apply (proj1 addMarginToSvg_expands_viewBox boxOnly 20%float
           [("viewBox", "0 0 100 50")] "0 0 100 50" 0%float 0%float 100%float 50%float);
    vm_compute; reflexivity.
Defined.

(** C2, at the input where the code leaves it: a [viewBox] of four
    components that are not numbers is no parseable bounding box, and yet
    the document is not handed back as it was; the pass writes
    [NaN NaN NaN NaN] over the [viewBox]. *)
Theorem addMarginToSvg_four_words :
  parseableViewBox fourWords = false /\
  addMarginToSvg fourWords 20%float =
    Some [Element "svg" [("viewBox", "NaN NaN NaN NaN")] []].
Proof. split; vm_compute; reflexivity. Qed.

(** What holds of C2: the pass hands its input back when the margin is
    not positive, when there is no [svg] element, when that element has no
    [viewBox] or an empty one, and when the [viewBox] does not split into
    four parts. *)
Lemma addMarginToSvg_returns_input (doc : document) (m : number) :
  (m <=? 0)%float = true \/
  svgAttributes doc = None \/
  (exists attrs,
      svgAttributes doc = Some attrs /\
      (getAttribute "viewBox" attrs = None \/
       exists viewBox,
         getAttribute "viewBox" attrs = Some viewBox /\
         List.length (split_whitespace viewBox) <> 4%nat)) ->
  addMarginToSvg doc m = None.
Proof.
  intros [Hm | H].
  - unfold addMarginToSvg. now rewrite Hm.
  - destruct (m <=? 0)%float eqn:Hm; [unfold addMarginToSvg; now rewrite Hm|].
    destruct H as [Hnone | (attrs & Hsvg & Hvb)].
    + unfold addMarginToSvg, svgAttributes in *. rewrite Hm.
      destruct (getElementsByTagName "svg" doc); [reflexivity | discriminate].
    + pose proof (addMarginToSvg_element doc m attrs Hm Hsvg) as He.
      assert (Hex : expandSvgElement attrs m = None).
      { unfold expandSvgElement, expandLogged.
        destruct Hvb as [-> | (viewBox & -> & Hlen)]; [reflexivity|].
        destruct (isEmpty viewBox); [reflexivity|].
        rewrite <- (length_map Number) in Hlen.
        destruct (map Number (split_whitespace viewBox))
          as [| x [| y [| w [| h [| ? ?]]]]]; try reflexivity.
        now contradiction Hlen. }
      now rewrite Hex in He.
Qed.

Lemma expandSvgElement_inv (attrs attrs' : list attribute) (m : number) :
  expandSvgElement attrs m = Some attrs' ->
  exists viewBox x y w h,
    getAttribute "viewBox" attrs = Some viewBox /\
    map Number (split_whitespace viewBox) = [x; y; w; h] /\
    attrs' = expanded attrs m x y w h.
Proof.
  intro H.
  destruct (getAttribute "viewBox" attrs) as [viewBox|] eqn:Hvb.
  2:{ unfold expandSvgElement, expandLogged in H. now rewrite Hvb in H. }
  destruct (map Number (split_whitespace viewBox))
    as [| x [| y [| w [| h [| ? ?]]]]] eqn:Hparts.
  5:{ rewrite (expandSvgElement_four_parts _ _ _ _ _ _ _ Hvb Hparts) in H.
      injection H as <-. now exists viewBox, x, y, w, h. }
  all: unfold expandSvgElement, expandLogged in H; rewrite Hvb, Hparts in H;
    destruct (isEmpty viewBox); discriminate.
Qed.

(** C3 as the code has it: with [m > 0], a [viewBox] of width [w > 0] and
    height [h > 0] and a declared width that has no percent sign and reads
    as the number [W], the declared width becomes the text of
    [W + 2 m (W / w)] followed by [ex]; a declared height that is not
    empty and has no percent sign becomes the text of that new width
    divided by [w / h], followed by [ex]; a declared height that is
    empty is left empty. *)
Theorem addMarginToSvg_scales_declared_size :
  (forall (doc : document) (m : number) (attrs : list attribute)
          (viewBox widthAttr : string) (x y w h : number),
      (0 <? m)%float = true ->
      svgAttributes doc = Some attrs ->
      getAttribute "viewBox" attrs = Some viewBox ->
      map Number (split_whitespace viewBox) = [x; y; w; h] ->
      (0 <? w)%float = true ->
      (0 <? h)%float = true ->
      getAttribute "width" attrs = Some widthAttr ->
      includes widthAttr "%" = false ->
      isNaN (parseFloat widthAttr) = false ->
      let W := parseFloat widthAttr in
      let newWidth := (W + 2 * m * (W / w))%float in
      exists doc' attrs',
        addMarginToSvg doc m = Some doc' /\
        svgAttributes doc' = Some attrs' /\
        getAttribute "width" attrs' = Some (toString newWidth ++ "ex") /\
        (forall heightAttr,
            getAttribute "height" attrs = Some heightAttr ->
            heightAttr <> EmptyString ->
            includes heightAttr "%" = false ->
            getAttribute "height" attrs' =
              Some (toString (newWidth / (w / h))%float ++ "ex")) /\
        (getAttribute "height" attrs = Some EmptyString ->
         getAttribute "height" attrs' = Some EmptyString)) /\
  addMarginToSvg (sized "0 0 100 50" "10ex" "5ex") 20%float =
    Some (sized "-20 -20 140 90" "14ex" "7ex") /\
  addMarginToSvg (sized "0 0 100 50" "10ex" "") 20%float =
    Some (sized "-20 -20 140 90" "14ex" "").
Proof.
  split; [|split; vm_compute; reflexivity].
  intros doc m attrs viewBox widthAttr x y w h Hm Hsvg Hvb Hparts Hw Hh
         Hwidth Hpct Hnum W newWidth. subst W newWidth.
  pose proof (addMarginToSvg_element doc m attrs (positive_not_le_zero m Hm) Hsvg) as H.
  rewrite (expandSvgElement_four_parts attrs m viewBox x y w h Hvb Hparts) in H.
  destruct H as (doc' & Hdoc & Hsvg').
  exists doc', (expanded attrs m x y w h).
  split; [exact Hdoc|]. split; [exact Hsvg'|].
  assert (Hpresent : presentWithoutPercent (getAttribute "width" attrs) = true).
  { rewrite Hwidth. cbn [presentWithoutPercent]. rewrite Hpct.
    destruct widthAttr; [now rewrite parseFloat_empty in Hnum | reflexivity]. }
  unfold expanded. cbv zeta. rewrite Hpresent, Hwidth. cbn [valueOf].
  rewrite Hnum, Hw, Hh. cbn [negb andb].
  split.
  - destruct (presentWithoutPercent (getAttribute "height" attrs));
      rewrite ?(get_set_other "width" "height") by discriminate;
      apply get_set_same.
  - split.
    + intros heightAttr Hheight Hne' Hpct'.
      rewrite Hheight. cbn [presentWithoutPercent]. rewrite Hpct'.
      destruct heightAttr; [contradiction|]. cbn [isEmpty negb andb].
      apply get_set_same.
    + intro Hheight. rewrite Hheight. cbn [presentWithoutPercent isEmpty negb andb].
      rewrite (get_set_other "height" "width") by discriminate.
      rewrite (get_set_other "height" "viewBox") by discriminate.
      exact Hheight.
Qed.

Lemma addMarginToSvg_scales_declared_size_witness :
  (exists doc' attrs',
      addMarginToSvg (sized "0 0 100 50" "10ex" "5ex") 20%float = Some doc' /\
      svgAttributes doc' = Some attrs' /\
      getAttribute "width" attrs' =
        Some (toString (parseFloat "10ex" + 2 * 20 * (parseFloat "10ex" / 100))%float
              ++ "ex") /\
      (forall heightAttr,
          Some "5ex" = Some heightAttr ->
          heightAttr <> EmptyString ->
          includes heightAttr "%" = false ->
          getAttribute "height" attrs' =
            Some (toString
                    ((parseFloat "10ex" + 2 * 20 * (parseFloat "10ex" / 100))
                     / (100 / 50))%float
                  ++ "ex")) /\
      (Some "5ex" = Some EmptyString ->
       getAttribute "height" attrs' = Some EmptyString)) /\
  (exists doc' attrs',
      addMarginToSvg (sized "0 0 100 50" "10ex" "") 20%float = Some doc' /\
      svgAttributes doc' = Some attrs' /\
      getAttribute "width" attrs' =
        Some (toString (parseFloat "10ex" + 2 * 20 * (parseFloat "10ex" / 100))%float
              ++ "ex") /\
      (forall heightAttr,
          Some EmptyString = Some heightAttr ->
          heightAttr <> EmptyString ->
          includes heightAttr "%" = false ->
          getAttribute "height" attrs' =
            Some (toString
                    ((parseFloat "10ex" + 2 * 20 * (parseFloat "10ex" / 100))
                     / (100 / 50))%float
                  ++ "ex")) /\
      (Some EmptyString = Some EmptyString ->
       getAttribute "height" attrs' = Some EmptyString)).
Proof.
  split.
  - apply (proj1 addMarginToSvg_scales_declared_size
             (sized "0 0 100 50" "10ex" "5ex") 20%float
             [("viewBox", "0 0 100 50"); ("width", "10ex"); ("height", "5ex")]
             "0 0 100 50" "10ex" 0%float 0%float 100%float 50%float);
      vm_compute; reflexivity.
  - apply (proj1 addMarginToSvg_scales_declared_size
             (sized "0 0 100 50" "10ex" "") 20%float
             [("viewBox", "0 0 100 50"); ("width", "10ex"); ("height", "")]
             "0 0 100 50" "10ex" 0%float 0%float 100%float 50%float);
      vm_compute; reflexivity.
Defined.

(** C3 as the spec words it fails twice.  A height attribute that is there,
    without a percent sign, but empty is left as it is; and the height the
    code writes is the new width divided by [w / h], which is not always
    the double that [new width * h / w] is: for the view box [0 0 3 9],
    width [5ex] and margin [20] the code writes [215.00000000000003ex]
    where the product form gives [215ex]. *)
Lemma addMarginToSvg_declared_height_counterexample :
  ~ declaredSizeAsSpecified (sized "0 0 100 50" "10ex" "") 20%float /\
  ~ declaredSizeAsSpecified (sized "0 0 3 9" "5ex" "15ex") 20%float.
Proof.
  split; intro H.
  - destruct (H [("viewBox", "0 0 100 50"); ("width", "10ex"); ("height", "")]
                "0 0 100 50" "10ex" 0%float 0%float 100%float 50%float)
      as (doc' & attrs' & Hdoc & Hsvg & _ & Hheight);
      try (vm_compute; reflexivity).
    vm_compute in Hdoc. injection Hdoc as <-.
    vm_compute in Hsvg. injection Hsvg as <-.
    specialize (Hheight EmptyString eq_refl eq_refl).
    vm_compute in Hheight. discriminate.
  - destruct (H [("viewBox", "0 0 3 9"); ("width", "5ex"); ("height", "15ex")]
                "0 0 3 9" "5ex" 0%float 0%float 3%float 9%float)
      as (doc' & attrs' & Hdoc & Hsvg & _ & Hheight);
      try (vm_compute; reflexivity).
    vm_compute in Hdoc. injection Hdoc as <-.
    vm_compute in Hsvg. injection Hsvg as <-.
    specialize (Hheight "15ex" eq_refl eq_refl).
    vm_compute in Hheight. discriminate.
Qed.

(** What the code writes at the two inputs. *)
Lemma addMarginToSvg_declared_height_values :
  addMarginToSvg (sized "0 0 100 50" "10ex" "") 20%float =
    Some (sized "-20 -20 140 90" "14ex" "") /\
  addMarginToSvg (sized "0 0 3 9" "5ex" "15ex") 20%float =
    Some (sized "-20 -20 43 49" "71.66666666666667ex" "215.00000000000003ex") /\
  (let W := parseFloat "5ex" in
   let newWidth := (W + 2 * 20 * (W / 3))%float in
   toString (newWidth * 9 / 3)%float ++ "ex" = "215ex").
Proof. repeat split; vm_compute; reflexivity. Qed.

(** C8: with [m > 0] and a [viewBox] of four parts, when the declared
    width is absent, has a percent sign or does not read as a number, or
    when the width or the height of the [viewBox] is not positive, the pass
    sets the [viewBox] of the first [svg] element and nothing else; and
    whatever the pass does, a declared height that is absent or has a
    percent sign stays as it is. *)
Theorem addMarginToSvg_keeps_declared_size :
  (forall (doc : document) (m : number) (attrs : list attribute)
          (viewBox : string) (x y w h : number),
      (0 <? m)%float = true ->
      svgAttributes doc = Some attrs ->
      getAttribute "viewBox" attrs = Some viewBox ->
      map Number (split_whitespace viewBox) = [x; y; w; h] ->
      getAttribute "width" attrs = None \/
      (exists s, getAttribute "width" attrs = Some s /\ includes s "%" = true) \/
      (exists s, getAttribute "width" attrs = Some s /\ isNaN (parseFloat s) = true) \/
      (w <=? 0)%float = true \/
      (h <=? 0)%float = true ->
      let attrs' :=
        setAttribute "viewBox"
          (showViewBox (x - m) (y - m) (w + 2 * m) (h + 2 * m))%float attrs in
      exists doc',
        addMarginToSvg doc m = Some doc' /\
        updateFirst "svg" attrs' doc = Some doc' /\
        svgAttributes doc' = Some attrs' /\
        getAttribute "width" attrs' = getAttribute "width" attrs /\
        getAttribute "height" attrs' = getAttribute "height" attrs) /\
  (forall (doc doc' : document) (m : number) (attrs attrs' : list attribute),
      addMarginToSvg doc m = Some doc' ->
      svgAttributes doc = Some attrs ->
      svgAttributes doc' = Some attrs' ->
      getAttribute "height" attrs = None \/
      (exists s, getAttribute "height" attrs = Some s /\ includes s "%" = true) ->
      getAttribute "height" attrs' = getAttribute "height" attrs).
Proof.
  split.
  - intros doc m attrs viewBox x y w h Hm Hsvg Hvb Hparts Hcase attrs'.
    assert (Hle := positive_not_le_zero m Hm).
    pose proof (addMarginToSvg_element doc m attrs Hle Hsvg) as H.
    rewrite (expandSvgElement_four_parts attrs m viewBox x y w h Hvb Hparts) in H.
    assert (Hsame : expanded attrs m x y w h = attrs').
    { unfold expanded. cbv zeta.
      destruct Hcase as [Hw | [(s & Hw & Hpct) | [(s & Hw & Hnan) | [Hw | Hh]]]].
      - now rewrite Hw.
      - rewrite Hw. cbn [presentWithoutPercent]. rewrite Hpct.
        now rewrite andb_false_r.
      - rewrite Hw. cbn [valueOf]. rewrite Hnan. cbn [negb andb].
        now rewrite andb_false_r.
      - rewrite (le_zero_not_positive w Hw).
        now rewrite andb_false_r, andb_false_r.
      - rewrite (le_zero_not_positive h Hh).
        now rewrite !andb_false_r. }
    rewrite Hsame in H. destruct H as (doc' & Hdoc & Hsvg').
    exists doc'. split; [exact Hdoc|]. split.
    + unfold addMarginToSvg, svgAttributes in Hdoc, Hsvg. rewrite Hle in Hdoc.
      destruct (getElementsByTagName "svg" doc) as [| e rest]; [discriminate|].
      injection Hsvg as Hattrs. rewrite Hattrs in Hdoc.
      rewrite (expandSvgElement_four_parts attrs m viewBox x y w h Hvb Hparts) in Hdoc.
      now rewrite Hsame in Hdoc.
    + split; [exact Hsvg'|].
      subst attrs'. split; apply get_set_other; discriminate.
  - intros doc doc' m attrs attrs' Hdoc Hsvg Hsvg' Hheight.
    destruct (addMarginToSvg_inv doc doc' m Hdoc) as (_ & a & a' & Ha & Hex & Ha').
    assert (a = attrs) by congruence. assert (a' = attrs') by congruence. subst a a'.
    destruct (expandSvgElement_inv attrs attrs' m Hex)
      as (viewBox & x & y & w & h & _ & _ & ->).
    assert (Habsent : presentWithoutPercent (getAttribute "height" attrs) = false).
    { destruct Hheight as [-> | (s & -> & Hpct)]; [reflexivity|].
      cbn [presentWithoutPercent]. rewrite Hpct. apply andb_false_r. }
    unfold expanded. cbv zeta. rewrite Habsent.
    destruct (presentWithoutPercent (getAttribute "width" attrs) && _);
      rewrite ?(get_set_other "height" "width"), ?(get_set_other "height" "viewBox")
        by discriminate;
      reflexivity.
Qed.

Lemma addMarginToSvg_keeps_declared_size_witness :
  let attrs := [("viewBox", "0 0 100 50"); ("width", "100%"); ("height", "100%")] in
  let attrs' :=
    setAttribute "viewBox"
      (showViewBox (0 - 20) (0 - 20) (100 + 2 * 20) (50 + 2 * 20))%float attrs in
  exists doc',
    addMarginToSvg (sized "0 0 100 50" "100%" "100%") 20%float = Some doc' /\
    updateFirst "svg" attrs' (sized "0 0 100 50" "100%" "100%") = Some doc' /\
    svgAttributes doc' = Some attrs' /\
    getAttribute "width" attrs' = getAttribute "width" attrs /\
    getAttribute "height" attrs' = getAttribute "height" attrs.
Proof.
  apply (proj1 addMarginToSvg_keeps_declared_size
           (sized "0 0 100 50" "100%" "100%") 20%float
           [("viewBox", "0 0 100 50"); ("width", "100%"); ("height", "100%")]
           "0 0 100 50" 0%float 0%float 100%float 50%float).
  - vm_compute; reflexivity.
  - reflexivity.
  - reflexivity.
  - vm_compute; reflexivity.
  - right. left. exists "100%". split; reflexivity.
Defined.

(** C10: a declared width or height that the pass changes is the text of a
    number followed by [ex], whatever the unit it had; [10pt] with view box
    width [100] and margin [20] becomes [14ex]. *)
Theorem addMarginToSvg_writes_ex :
  (forall (doc doc' : document) (m : number) (attrs attrs' : list attribute),
      addMarginToSvg doc m = Some doc' ->
      svgAttributes doc = Some attrs ->
      svgAttributes doc' = Some attrs' ->
      (getAttribute "width" attrs' <> getAttribute "width" attrs ->
       exists v, getAttribute "width" attrs' = Some (toString v ++ "ex")) /\
      (getAttribute "height" attrs' <> getAttribute "height" attrs ->
       exists v, getAttribute "height" attrs' = Some (toString v ++ "ex"))) /\
  addMarginToSvg (widthOnly "0 0 100 50" "10pt") 20%float =
    Some (widthOnly "-20 -20 140 90" "14ex").
Proof.
  split; [|vm_compute; reflexivity].
  intros doc doc' m attrs attrs' Hdoc Hsvg Hsvg'.
  destruct (addMarginToSvg_inv doc doc' m Hdoc) as (_ & a & a' & Ha & Hex & Ha').
  assert (a = attrs) by congruence. assert (a' = attrs') by congruence. subst a a'.
  destruct (expandSvgElement_inv attrs attrs' m Hex)
    as (viewBox & x & y & w & h & _ & _ & ->).
  unfold expanded. cbv zeta.
  destruct (presentWithoutPercent (getAttribute "width" attrs) && _).
  - destruct (presentWithoutPercent (getAttribute "height" attrs)); split;
      intro Hchanged.
    + rewrite (get_set_other "width" "height") by discriminate.
      eexists. apply get_set_same.
    + eexists. apply get_set_same.
    + eexists. apply get_set_same.
    + exfalso. apply Hchanged.
      rewrite (get_set_other "height" "width") by discriminate.
      apply get_set_other. discriminate.
  - split; intro Hchanged; exfalso; apply Hchanged;
      apply get_set_other; discriminate.
Qed.

Lemma addMarginToSvg_writes_ex_witness :
  (getAttribute "width" [("viewBox", "-20 -20 140 90"); ("width", "14ex")]
     <> getAttribute "width" [("viewBox", "0 0 100 50"); ("width", "10pt")] ->
   exists v,
     getAttribute "width" [("viewBox", "-20 -20 140 90"); ("width", "14ex")]
       = Some (toString v ++ "ex")) /\
  (getAttribute "height" [("viewBox", "-20 -20 140 90"); ("width", "14ex")]
     <> getAttribute "height" [("viewBox", "0 0 100 50"); ("width", "10pt")] ->
   exists v,
     getAttribute "height" [("viewBox", "-20 -20 140 90"); ("width", "14ex")]
       = Some (toString v ++ "ex")).
Proof.
  apply (proj1 addMarginToSvg_writes_ex
           (widthOnly "0 0 100 50" "10pt") (widthOnly "-20 -20 140 90" "14ex")
           20%float
           [("viewBox", "0 0 100 50"); ("width", "10pt")]
           [("viewBox", "-20 -20 140 90"); ("width", "14ex")]);
    vm_compute; reflexivity.
Defined.

End MarginFacts.

(** ** The outline pass *)

Module OutlineFacts.
Import JSString JSNumber Dom Core Vocabulary AttributeFacts TreeFacts.

#[local] Opaque toString.

Lemma isNone_iff (fill : option string) :
  isNone fill = true <-> fill = Some "none".
Proof.
  destruct fill as [v|]; cbn [isNone]; [|split; discriminate].
  rewrite String.eqb_eq. split; congruence.
Qed.

Section SetOutline.
Variable opts : OutlineOpts.
Variable p : list attribute.

Lemma setOutline_stroke : getAttribute "stroke" (setOutline opts p) = Some (stroke opts).
Proof.
  unfold setOutline.
  rewrite !(get_set_other "stroke") by discriminate. apply get_set_same.
Qed.

Lemma setOutline_stroke_width :
  getAttribute "stroke-width" (setOutline opts p) = Some (toString (strokeWidth opts)).
Proof.
  unfold setOutline.
  rewrite !(get_set_other "stroke-width") by discriminate. apply get_set_same.
Qed.

Lemma setOutline_paint_order :
  getAttribute "paint-order" (setOutline opts p) = Some "stroke fill".
Proof.
  unfold setOutline.
  rewrite !(get_set_other "paint-order") by discriminate. apply get_set_same.
Qed.

Lemma setOutline_linejoin :
  getAttribute "stroke-linejoin" (setOutline opts p) = Some "round".
Proof. unfold setOutline. apply get_set_same. Qed.

Lemma setOutline_other (k : string) :
  k <> "stroke" -> k <> "stroke-width" -> k <> "paint-order" -> k <> "stroke-linejoin" ->
  getAttribute k (setOutline opts p) = getAttribute k p.
Proof.
  intros H1 H2 H3 H4. unfold setOutline. now rewrite !get_set_other.
Qed.

End SetOutline.

(** Setting the outline a second time sets each attribute to the value it
    has. *)
Lemma setOutline_twice (opts : OutlineOpts) (p : list attribute) :
  setOutline opts (setOutline opts p) = setOutline opts p.
Proof.
  unfold setOutline at 1.
  rewrite (set_same_value "stroke") by apply setOutline_stroke.
  rewrite (set_same_value "stroke-width") by apply setOutline_stroke_width.
  rewrite (set_same_value "paint-order") by apply setOutline_paint_order.
  apply set_same_value, setOutline_linejoin.
Qed.

Lemma outlinePath_twice (opts : OutlineOpts) (p : list attribute) :
  outlinePath opts (outlinePath opts p) = outlinePath opts p.
Proof.
  unfold outlinePath. cbv zeta.
  destruct (isNone (getAttribute "fill" p)) eqn:Hfill.
  - now rewrite Hfill.
  - rewrite (setOutline_other opts p "fill") by discriminate.
    rewrite Hfill. apply setOutline_twice.
Qed.

(** *** Loops over the elements of one name *)

Section UpdateElements.
Variable tag : string.
Variable f : list attribute -> list attribute.

Lemma elementsIn_named (n : node) :
  Forall (fun e => tagNameOf e = Some tag) (elementsIn tag n).
Proof.
  induction n as [t attrs children IH | data] using node_ind; [|constructor].
  cbn [elementsIn]. apply Forall_app. split.
  - destruct (String.eqb_spec t tag) as [-> | _]; repeat constructor.
  - apply Forall_flat_map. exact IH.
Qed.

Lemma elementsIn_update (n : node) :
  elementsIn tag (updateElements tag f n)
  = map (updateElements tag f) (elementsIn tag n).
Proof.
  induction n as [t attrs children IH | data] using node_ind; [|reflexivity].
  cbn [elementsIn updateElements]. rewrite map_app. f_equal.
  - destruct (String.eqb t tag) eqn:E; cbn [map updateElements]; now rewrite ?E.
  - induction IH as [| c rest Hc _ IHrest]; [reflexivity|].
    cbn [map flat_map]. now rewrite map_app, Hc, IHrest.
Qed.

Lemma getElementsByTagName_update (doc : document) :
  getElementsByTagName tag (map (updateElements tag f) doc)
  = map (updateElements tag f) (getElementsByTagName tag doc).
Proof.
  unfold getElementsByTagName.
  induction doc as [| n rest IH]; [reflexivity|].
  cbn [map flat_map]. now rewrite map_app, elementsIn_update, IH.
Qed.

Lemma attributesOf_update (e : node) :
  tagNameOf e = Some tag ->
  attributesOf (updateElements tag f e) = f (attributesOf e).
Proof.
  destruct e as [t attrs children | data]; [|discriminate].
  cbn. intros [= ->]. now rewrite String.eqb_refl.
Qed.

Lemma tagNameOf_update (e : node) :
  tagNameOf (updateElements tag f e) = tagNameOf e.
Proof. destruct e; reflexivity. Qed.

(** The loop leaves everything but the attributes of those elements. *)
Lemma eraseAttributes_update (n : node) :
  eraseAttributes tag (updateElements tag f n) = eraseAttributes tag n.
Proof.
  unfold eraseAttributes.
  induction n as [t attrs children IH | data] using node_ind; [|reflexivity].
  cbn [updateElements]. f_equal.
  - destruct (String.eqb t tag); reflexivity.
  - rewrite map_map. apply map_ext_Forall. exact IH.
Qed.

Lemma updateElements_twice (n : node) :
  (forall attrs, f (f attrs) = f attrs) ->
  updateElements tag f (updateElements tag f n) = updateElements tag f n.
Proof.
  intro Hf.
  induction n as [t attrs children IH | data] using node_ind; [|reflexivity].
  cbn [updateElements]. f_equal.
  - destruct (String.eqb t tag); [apply Hf | reflexivity].
  - rewrite map_map. apply map_ext_Forall. exact IH.
Qed.

End UpdateElements.

Lemma getElementsByTagName_named (tag : string) (doc : document) :
  Forall (fun e => tagNameOf e = Some tag) (getElementsByTagName tag doc).
Proof.
  unfold getElementsByTagName. apply Forall_flat_map, Forall_forall.
  intros n _. apply elementsIn_named.
Qed.

Lemma Forall2_map_r {A B : Type} (R : A -> B -> Prop) (g : A -> B) (l : list A) :
  Forall (fun x => R x (g x)) l -> Forall2 R l (map g l).
Proof. induction 1; constructor; assumption. Qed.

(** C4: the [path] elements after the pass are the [path] elements before
    it, one for one and in order; one whose fill is not ["none"] has the
    stroke colour and width of the style, [paint-order] ["stroke fill"] and
    [stroke-linejoin] ["round"]; one whose fill is ["none"] has the
    attributes it had; and but for the attributes of [path] elements the
    document is the same tree. *)
Theorem addOutlineToMathJaxSvg_outlines_filled_paths
    (doc : document) (opts : OutlineOpts) :
  Forall2 (outlined opts)
    (getElementsByTagName "path" doc)
    (getElementsByTagName "path" (Core.addOutlineToMathJaxSvg doc opts)) /\
  map (eraseAttributes "path") (Core.addOutlineToMathJaxSvg doc opts)
  = map (eraseAttributes "path") doc.
Proof.
  unfold Core.addOutlineToMathJaxSvg. split.
  - rewrite getElementsByTagName_update. apply Forall2_map_r.
    eapply Forall_impl; [|apply getElementsByTagName_named].
    intros p Hp. unfold outlined.
    rewrite tagNameOf_update, (attributesOf_update _ _ _ Hp).
    repeat split; try assumption.
    + intro Hfill. unfold outlinePath. cbv zeta.
      apply isNone_iff in Hfill. now rewrite Hfill.
    + unfold outlinePath; cbv zeta.
      destruct (isNone (getAttribute "fill" (attributesOf p))) eqn:E;
        [apply isNone_iff in E; contradiction | apply setOutline_stroke].
    + unfold outlinePath; cbv zeta.
      destruct (isNone (getAttribute "fill" (attributesOf p))) eqn:E;
        [apply isNone_iff in E; contradiction | apply setOutline_stroke_width].
    + unfold outlinePath; cbv zeta.
      destruct (isNone (getAttribute "fill" (attributesOf p))) eqn:E;
        [apply isNone_iff in E; contradiction | apply setOutline_paint_order].
    + unfold outlinePath; cbv zeta.
      destruct (isNone (getAttribute "fill" (attributesOf p))) eqn:E;
        [apply isNone_iff in E; contradiction | apply setOutline_linejoin].
  - rewrite map_map. apply map_ext. intro n. apply eraseAttributes_update.
Qed.

(** C9: the pass applied to its own result, with the same style, gives
    that result. *)
Theorem addOutlineToMathJaxSvg_idempotent (doc : document) (opts : OutlineOpts) :
  Core.addOutlineToMathJaxSvg (Core.addOutlineToMathJaxSvg doc opts) opts
  = Core.addOutlineToMathJaxSvg doc opts.
Proof.
  unfold Core.addOutlineToMathJaxSvg. rewrite map_map. apply map_ext.
  intro n. apply updateElements_twice. apply outlinePath_twice.
Qed.

End OutlineFacts.

(** ** The input enumerator *)

Module EnumeratorFacts.
Import JSString Core Vocabulary.

(** *** Suffixes and case *)

Lemma endsWith_iff (s suffix : string) :
  endsWith s suffix = true <-> exists front, s = front ++ suffix.
Proof.
  split.
  - induction s as [| c s' IH]; cbn [endsWith]; intro H.
    + rewrite orb_false_r in H. apply String.eqb_eq in H. now exists EmptyString.
    + apply orb_true_iff in H. destruct H as [H | H].
      * apply String.eqb_eq in H. now exists EmptyString.
      * destruct (IH H) as [front ->]. now exists (String c front).
  - intros [front ->].
    induction front as [| c front' IH].
    + destruct suffix; cbn [append endsWith]; now rewrite String.eqb_refl.
    + cbn [append endsWith]. rewrite IH. apply orb_true_r.
Qed.

Lemma toLowerCase_app (x y : string) :
  toLowerCase (x ++ y) = toLowerCase x ++ toLowerCase y.
Proof. induction x as [| c x' IH]; cbn; [reflexivity | now rewrite IH]. Qed.

Lemma toLowerCase_split (n a b : string) :
  toLowerCase n = a ++ b ->
  exists x y, n = x ++ y /\ toLowerCase x = a /\ toLowerCase y = b.
Proof.
  revert n. induction a as [| c a' IH]; intros n H.
  - now exists EmptyString, n.
  - destruct n as [| c0 n']; [discriminate|].
    cbn in H. injection H as Hc Hrest.
    destruct (IH n' Hrest) as (x & y & -> & Hx & Hy).
    exists (String c0 x), y. cbn. now rewrite Hc, Hx.
Qed.

Lemma isTexFile_iff (d : Dirent) :
  isTexFile d = true <-> type d = RegularFile /\ hasTexExtension (name d).
Proof.
  unfold isTexFile, isFile, hasTexExtension.
  rewrite andb_true_iff, endsWith_iff. split.
  - intros [Hfile [front Hlow]]. split; [destruct (type d); congruence|].
    destruct (toLowerCase_split _ _ _ Hlow) as (x & y & Hn & _ & Hy). now exists x, y.
  - intros [-> (stem & ext & -> & Hext)]. split; [reflexivity|].
    exists (toLowerCase stem). now rewrite toLowerCase_app, Hext.
Qed.

(** *** The order of [sort] *)

Lemma le_trans (a b c : string) : le a b -> le b c -> le a c.
Proof.
  unfold le, String.leb. intros Hab Hbc.
  destruct (String.compare a b) eqn:Eab; [| |discriminate].
  - apply String_as_OT.cmp_eq in Eab. now subst.
  - destruct (String.compare b c) eqn:Ebc; [| |discriminate].
    + apply String_as_OT.cmp_eq in Ebc. subst. now rewrite Eab.
    + apply String_as_OT.cmp_lt in Eab, Ebc.
      pose proof (String_as_OT.lt_trans _ _ _ Eab Ebc) as Hac.
      apply String_as_OT.cmp_lt in Hac. unfold String_as_OT.cmp in Hac.
      now rewrite Hac.
Qed.

Lemma le_total (a b : string) : String.leb a b = false -> le b a.
Proof.
  intro H. unfold le. destruct (String.leb_total a b); congruence.
Qed.

Lemma insert_perm (x : string) (l : list string) : Permutation (insert x l) (x :: l).
Proof.
  induction l as [| y l' IH]; cbn; [reflexivity|].
  destruct (String.leb x y); [reflexivity|].
  rewrite IH. apply perm_swap.
Qed.

Lemma sort_perm (l : list string) : Permutation (sort l) l.
Proof.
  induction l as [| x l' IH]; cbn; [reflexivity|].
  now rewrite insert_perm, IH.
Qed.

Lemma insert_sorted (x : string) (l : list string) :
  StronglySorted le l -> StronglySorted le (insert x l).
Proof.
  induction 1 as [| y l' Hsorted IH Hall]; cbn.
  - repeat constructor.
  - destruct (String.leb x y) eqn:E.
    + constructor; [now constructor|].
      constructor; [exact E|].
      eapply Forall_impl; [|exact Hall]. intros z Hz. now apply (le_trans x y z).
    + constructor; [exact IH|].
      apply (Permutation_Forall (Permutation_sym (insert_perm x l'))).
      constructor; [now apply le_total | exact Hall].
Qed.

Lemma sort_sorted (l : list string) : StronglySorted le (sort l).
Proof.
  induction l as [| x l' IH]; cbn; [constructor | now apply insert_sorted].
Qed.

(** C5: the enumerator returns the names, as they are written, of the
    entries that are regular files and whose name ends in [.tex] in some
    mix of cases: those names and no other, each as often as it is listed,
    in ascending order of their code units; of [b.tex], [A.TEX] and
    [c.txt] it returns [A.TEX] and [b.tex]. *)
Theorem listTexFiles_sorted_tex_names :
  (forall items : list Dirent,
      (forall n, In n (listTexFiles items) <->
                 exists d, In d items /\ name d = n /\
                           type d = RegularFile /\ hasTexExtension n) /\
      Permutation (listTexFiles items) (map name (filter isTexFile items)) /\
      StronglySorted le (listTexFiles items)) /\
  listTexFiles
    [ {| name := "b.tex"; type := RegularFile |};
      {| name := "A.TEX"; type := RegularFile |};
      {| name := "c.txt"; type := RegularFile |} ]
  = ["A.TEX"; "b.tex"].
Proof.
  split; [|reflexivity].
  intro items. unfold listTexFiles.
  split; [|split; [apply sort_perm | apply sort_sorted]].
  intro n. split.
  - intro Hin. apply (Permutation_in _ (sort_perm _)) in Hin.
    apply in_map_iff in Hin. destruct Hin as (d & Hname & Hd).
    apply filter_In in Hd. destruct Hd as [Hd Htex].
    apply isTexFile_iff in Htex. destruct Htex as [Hfile Hext].
    exists d. subst n. auto.
  - intros (d & Hd & Hname & Hfile & Hext).
    apply (Permutation_in _ (Permutation_sym (sort_perm _))).
    apply in_map_iff. exists d. split; [exact Hname|].
    apply filter_In. split; [exact Hd|].
    apply isTexFile_iff. subst n. auto.
Qed.

End EnumeratorFacts.

(** ** The batch *)

Module BatchFacts.
Import JSString JSNumber Dom Vocabulary.

Lemma bind_returned {A B : Type} (t : list event) (a : A) (k : A -> IO B) :
  bind (t, Returned a) k = ((t ++ fst (k a))%list, snd (k a)).
Proof. cbn. now destruct (k a). Qed.

Lemma forEach_app {A : Type} (body : A -> IO unit) (xs ys : list A) (t : list event) :
  forEach body xs = (t, Returned tt) ->
  forEach body (xs ++ ys)%list
  = ((t ++ fst (forEach body ys))%list, snd (forEach body ys)).
Proof.
  revert t. induction xs as [| x xs' IH]; intros t H.
  - cbn in H. injection H as <-. cbn. now destruct (forEach body ys).
  - cbn [forEach app] in *.
    destruct (body x) as [t1 [[] | e]]; [|discriminate].
    rewrite bind_returned in *.
    destruct (forEach body xs') as [t2 [[] | e]]; [|discriminate].
    injection H as <-. rewrite (IH t2 eq_refl). cbn [fst snd].
    now rewrite app_assoc.
Qed.

Lemma forEach_emit (lines : list string) :
  forEach (fun line => emit (ConsoleLog line)) lines
  = (map ConsoleLog lines, Returned tt).
Proof.
  induction lines as [| l rest IH]; [reflexivity|].
  cbn [forEach]. unfold emit at 1. rewrite bind_returned, IH. reflexivity.
Qed.

Section WithEnvironment.
Variable env : Environment.

(** The text the margin pass of the run returns is the text of the
    document that [Core.addMarginToSvg] leaves, and the text it was given
    where that function says so. *)
Lemma parseDocument_eq (svgText : string) (printed : list diagnostic)
    (r : outcome document) :
  parseFromString env svgText = (printed, r) ->
  parseDocument env svgText = (map report printed, r).
Proof. intro H. unfold parseDocument. now rewrite H. Qed.

(** Where the parser returns the document [doc], the text the margin
    pass of the run returns is the text of the document that
    [Core.addMarginToSvg] leaves, and the text it was given where that
    function says so. *)
Lemma addMarginToSvg_returns (svgText : string) (m : number)
    (printed : list diagnostic) (doc : document) :
  parseFromString env svgText = (printed, Returned doc) ->
  snd (addMarginToSvg env svgText m)
  = Returned match Core.addMarginToSvg doc m with
             | Some doc' => serializeToString env doc'
             | None => svgText
             end.
Proof.
  intro Hparse.
  unfold addMarginToSvg, Core.addMarginToSvg, Core.expandSvgElement.
  destruct (m <=? 0)%float; [reflexivity|].
  rewrite (parseDocument_eq _ _ _ Hparse), bind_returned. cbn [snd].
  destruct (getElementsByTagName "svg" doc) as [| svgElement rest]; [reflexivity|].
  destruct (Core.expandLogged (attributesOf svgElement) m) as [lines [attrs'|]];
    rewrite forEach_emit, bind_returned; cbn [snd]; [|reflexivity].
  destruct (updateFirst "svg" attrs' doc); reflexivity.
Qed.

(** Where [parseFromString] reads back, with nothing printed, what
    [serializeToString] wrote, the outline pass of the run is idempotent
    on texts as it is on documents: the text it returns is returned as it
    is by a second pass. *)
Lemma addOutlineToMathJaxSvg_text_idempotent (svgText : string)
    (opts : Core.OutlineOpts) (printed : list diagnostic) (doc : document) :
  (forall d, parseFromString env (serializeToString env d) = ([], Returned d)) ->
  parseFromString env svgText = (printed, Returned doc) ->
  exists text,
    addOutlineToMathJaxSvg env svgText opts = (map report printed, Returned text) /\
    addOutlineToMathJaxSvg env text opts = ([], Returned text).
Proof.
  intros Hround Hparse.
  exists (serializeToString env (Core.addOutlineToMathJaxSvg doc opts)).
  unfold addOutlineToMathJaxSvg.
  rewrite (parseDocument_eq _ _ _ Hparse), (parseDocument_eq _ _ _ (Hround _)).
  cbn [bind ret map app]. rewrite List.app_nil_r. split; [reflexivity|].
  do 3 f_equal. unfold Core.addOutlineToMathJaxSvg.
  rewrite map_map. apply map_ext. intro n.
  apply OutlineFacts.updateElements_twice, OutlineFacts.outlinePath_twice.
Qed.

(** C7: when the directory holds no eligible file, the run makes sure of
    the output directory, prints one line on the error stream, sets the
    exit code to 1 and returns: it writes no file. *)
Theorem main_without_tex_files (cfg : RenderConfig) (items : list Core.Dirent) :
  let sourceDir := path_resolve env (equationsDir cfg) in
  let targetDir := path_resolve env (outDir cfg) in
  fs_mkdir env targetDir = Returned tt ->
  fs_readdir env sourceDir = Returned items ->
  Core.listTexFiles items = [] ->
  main env cfg
  = ([Mkdir targetDir;
      ConsoleError ("No .tex files found in " ++ sourceDir);
      SetExitCode 1],
     Returned tt)
  /\ Forall (fun e => isWrite e = false) (fst (main env cfg)).
Proof.
  intros sourceDir targetDir Hmkdir Hreaddir Hnone.
  assert (Hmain : main env cfg
                  = ([Mkdir targetDir;
                      ConsoleError ("No .tex files found in " ++ sourceDir);
                      SetExitCode 1],
                     Returned tt)).
  { unfold main, ensureDir, listTexFiles. fold sourceDir targetDir.
    rewrite Hmkdir, Hreaddir. cbn. rewrite Hnone. reflexivity. }
  split; [exact Hmain|]. rewrite Hmain. repeat constructor.
Qed.

(** C6: a file whose text is empty once trimmed costs one warning and
    nothing else, no write among it; and the run over a directory that
    lists it goes on with the files after it and ends as the loop over
    those ends. *)
Theorem main_skips_empty_file (cfg : RenderConfig) (file content : string) :
  let sourceDir := path_resolve env (equationsDir cfg) in
  let targetDir := path_resolve env (outDir cfg) in
  let warning := ConsoleWarn ("Skipping empty file: " ++ file) in
  fs_readFile env (path_join env sourceDir file) = Returned content ->
  trim content = EmptyString ->
  processFile env cfg sourceDir targetDir file = ([warning], Returned tt) /\
  isWrite warning = false /\
  forall (items : list Core.Dirent) (before after : list string) (t : list event),
    fs_mkdir env targetDir = Returned tt ->
    fs_readdir env sourceDir = Returned items ->
    Core.listTexFiles items = (before ++ file :: after)%list ->
    forEach (processFile env cfg sourceDir targetDir) before = (t, Returned tt) ->
    main env cfg
    = ((Mkdir targetDir :: t ++ warning
          :: fst (forEach (processFile env cfg sourceDir targetDir) after))%list,
       snd (forEach (processFile env cfg sourceDir targetDir) after)).
Proof.
  intros sourceDir targetDir warning Hread Hempty.
  assert (Hstep : processFile env cfg sourceDir targetDir file = ([warning], Returned tt)).
  { unfold processFile. rewrite Hread. cbn. rewrite Hempty. reflexivity. }
  split; [exact Hstep|]. split; [reflexivity|].
  intros items before after t Hmkdir Hreaddir Hfiles Hbefore.
  unfold main, ensureDir, listTexFiles. fold sourceDir targetDir.
  rewrite Hmkdir, Hreaddir. cbn [perform ask ret bind app].
  rewrite Hfiles.
  destruct (List.length (before ++ file :: after)) eqn:Hlen.
  { rewrite length_app in Hlen. cbn in Hlen. lia. }
  cbn [Nat.eqb].
  rewrite (forEach_app _ _ _ _ Hbefore). cbn [forEach fst snd].
  rewrite Hstep, bind_returned. cbn [fst snd app]. reflexivity.
Qed.

End WithEnvironment.

Lemma main_without_tex_files_witness :
  let env := offline [ {| Core.name := "notes.txt"; Core.type := Core.RegularFile |};
                       {| Core.name := "old.tex"; Core.type := Core.Directory |} ]
                     (fun _ => Thrown "ENOENT") in
  main env defaultConfig
  = ([Mkdir "/work/out";
      ConsoleError "No .tex files found in /work/equations";
      SetExitCode 1],
     Returned tt)
  /\ Forall (fun e => isWrite e = false) (fst (main env defaultConfig)).
Proof.
  intro env.
  apply (main_without_tex_files env defaultConfig
           [ {| Core.name := "notes.txt"; Core.type := Core.RegularFile |};
             {| Core.name := "old.tex"; Core.type := Core.Directory |} ]);
    reflexivity.
Defined.

Lemma main_skips_empty_file_witness :
  let env := offline [ {| Core.name := "blank.tex"; Core.type := Core.RegularFile |} ]
                     (fun _ => Returned "   ") in
  processFile env defaultConfig "/work/equations" "/work/out" "blank.tex"
  = ([ConsoleWarn "Skipping empty file: blank.tex"], Returned tt) /\
  main env defaultConfig
  = ([Mkdir "/work/out"; ConsoleWarn "Skipping empty file: blank.tex"], Returned tt).
Proof.
  intro env.
  destruct (main_skips_empty_file env defaultConfig "blank.tex" "   "
              eq_refl eq_refl) as (Hstep & _ & Hrun).
  split; [exact Hstep|].
  exact (Hrun [ {| Core.name := "blank.tex"; Core.type := Core.RegularFile |} ]
              [] [] [] eq_refl eq_refl eq_refl eq_refl).
Defined.

End BatchFacts.

(** ** Names and texts: [slugify], [wrapSvg] and the match of [renderOne] *)

Module TextFacts.
Import JSString Core.

(** *** [slugify] *)

Lemma noDot_app (a b : string) : noDot (a ++ b) = noDot a && noDot b.
Proof.
  induction a as [| c a' IH]; cbn; [reflexivity|].
  rewrite IH. apply andb_assoc.
Qed.

Lemma noDot_dotted (a b : string) : noDot (a ++ String "." b) = false.
Proof. rewrite noDot_app. cbn. apply andb_false_r. Qed.

(** X1: a name that ends in a dot and an extension without a dot loses
    that extension and nothing else, whatever dots the stem has. *)
Theorem slugify_strips_extension (stem ext : string) :
  ext <> EmptyString ->
  noDot ext = true ->
  slugify (stem ++ String "." ext) = stem.
Proof.
  intros Hne Hext.
  induction stem as [| c stem' IH]; cbn [append slugify].
  - rewrite Hext. destruct ext; [contradiction | reflexivity].
  - rewrite noDot_dotted, andb_false_r. now rewrite IH.
Qed.

Lemma slugify_strips_extension_witness :
  slugify ("zeckendorf.v2" ++ String "." "tex") = "zeckendorf.v2".
Proof.
  apply (slugify_strips_extension "zeckendorf.v2" "tex"); [discriminate | reflexivity].
Defined.

(** X2: [slugify] returns the name as it is, or the name without one last
    extension: a dot followed by one or more characters that are not
    dots. *)
Theorem slugify_shape (filename : string) :
  slugify filename = filename \/
  exists ext,
    ext <> EmptyString /\ noDot ext = true /\
    filename = slugify filename ++ String "." ext.
Proof.
  induction filename as [| c s' IH]; [now left|].
  cbn [slugify].
  destruct (Ascii.eqb_spec c ".") as [-> | Hc]; cbn [andb].
  - destruct s' as [| c' s'']; cbn [isEmpty negb andb].
    + now left.
    + destruct (noDot (String c' s'')) eqn:Hdots.
      * right. exists (String c' s''). repeat split; [discriminate | exact Hdots].
      * destruct IH as [-> | (ext & Hne & Hext & Heq)]; [now left|].
        right. exists ext. repeat split; try assumption.
        cbn [append]. now rewrite <- Heq.
  - destruct IH as [-> | (ext & Hne & Hext & Heq)]; [now left|].
    right. exists ext. repeat split; try assumption.
    cbn [append]. now rewrite <- Heq.
Qed.

(** X3: a name without a dot and a name that ends in a dot have no
    extension to lose: [slugify] returns them as they are. *)
Theorem slugify_keeps_plain_names (filename : string) :
  noDot filename = true \/ (exists front, filename = front ++ ".") ->
  slugify filename = filename.
Proof.
  intros [Hplain | [front ->]].
  - induction filename as [| c s' IH]; [reflexivity|].
    cbn in Hplain. apply andb_true_iff in Hplain. destruct Hplain as [Hc Hs].
    cbn [slugify]. apply negb_true_iff in Hc. rewrite Hc. cbn [andb].
    now rewrite IH.
  - induction front as [| c front' IH]; [reflexivity|].
    cbn [append slugify]. rewrite noDot_dotted, andb_false_r. now rewrite IH.
Qed.

Lemma slugify_keeps_plain_names_witness :
  slugify "Makefile" = "Makefile" /\ slugify "notes.tex." = "notes.tex.".
Proof.
  split.
  - apply (slugify_keeps_plain_names "Makefile"). left. reflexivity.
  - apply (slugify_keeps_plain_names "notes.tex."). right. now exists "notes.tex".
Defined.

(** *** [trim] and [wrapSvg] *)

Lemma trimEnd_idempotent (s : string) : trimEnd (trimEnd s) = trimEnd s.
Proof.
  induction s as [| c s' IH]; [reflexivity|].
  cbn [trimEnd]. destruct (trimEnd s') as [| b t] eqn:Htail.
  - destruct (isWhiteSpace c) eqn:Hc; [reflexivity|].
    cbn [trimEnd]. now rewrite Hc.
  - change (trimEnd (String c (String b t))) with
      (match trimEnd (String b t) with
       | EmptyString => if isWhiteSpace c then EmptyString else String c EmptyString
       | u => String c u
       end).
    now rewrite IH.
Qed.

(** White space at the end does not count. *)
Lemma trimEnd_app_space (s : string) (c : ascii) :
  isWhiteSpace c = true -> trimEnd (s ++ String c EmptyString) = trimEnd s.
Proof.
  intro Hc. induction s as [| a s' IH]; cbn [append trimEnd].
  - now rewrite Hc.
  - now rewrite IH.
Qed.

(** What [trim] returns is empty or starts with a character that is not
    white space. *)
Lemma trimStart_head (s : string) :
  match trimStart s with
  | EmptyString => True
  | String c _ => isWhiteSpace c = false
  end.
Proof.
  induction s as [| c s' IH]; [exact I|].
  cbn [trimStart]. destruct (isWhiteSpace c) eqn:Hc; [exact IH | exact Hc].
Qed.

Lemma trim_head (s : string) :
  match trim s with
  | EmptyString => True
  | String c _ => isWhiteSpace c = false
  end.
Proof.
  unfold trim. pose proof (trimStart_head s) as H.
  destruct (trimStart s) as [| c u]; [exact I|].
  cbn [trimEnd]. destruct (trimEnd u); [|exact H].
  now rewrite H.
Qed.

Lemma newline_is_space : isWhiteSpace (ascii_of_nat 10) = true.
Proof. reflexivity. Qed.

Lemma trim_wrapped (s : string) : trim (trim s ++ newline) = trim s.
Proof.
  pose proof (trim_head s) as Hhead.
  assert (Hend : trimEnd (trim s) = trim s) by apply trimEnd_idempotent.
  destruct (trim s) as [| c t] eqn:Ht; [reflexivity|].
  unfold trim at 1. cbn [append trimStart]. rewrite Hhead.
  change (String c (t ++ newline)) with (String c t ++ newline).
  unfold newline. now rewrite (trimEnd_app_space _ _ newline_is_space).
Qed.

(** X4: [wrapSvg] on its own result changes nothing, and its result is
    its argument without the white space at both ends, followed by one
    line feed. *)
Theorem wrapSvg_idempotent (svgInner : string) :
  wrapSvg (wrapSvg svgInner) = wrapSvg svgInner /\
  trim (wrapSvg svgInner) = trim svgInner.
Proof.
  unfold wrapSvg. now rewrite !trim_wrapped.
Qed.

(** *** The match of [renderOne] *)

Lemma startsWith_iff (s p : string) :
  startsWith s p = true <-> exists rest, s = p ++ rest.
Proof.
  unfold startsWith. revert s.
  induction p as [| a p' IH]; intro s.
  - split; [now exists s | destruct s; reflexivity].
  - destruct s as [| b s']; cbn [String.prefix append];
      [split; [discriminate | intros [rest H]; discriminate]|].
    destruct (ascii_dec a b) as [-> | Hab].
    + rewrite IH. split; intros [rest H]; exists rest; congruence.
    + split; [discriminate | intros [rest H]; congruence].
Qed.

(** A front of [u ++ v] no longer than [u] is a front of [u]. *)
Lemma startsWith_short (p u v : string) :
  (String.length p <= String.length u)%nat ->
  startsWith (u ++ v) p = startsWith u p.
Proof.
  unfold startsWith. revert u.
  induction p as [| a p' IH]; intros u Hlen;
    [destruct u, v; reflexivity|].
  destruct u as [| b u']; [cbn in Hlen; lia|].
  cbn [append String.prefix]. destruct (ascii_dec a b); [|reflexivity].
  apply IH. cbn in Hlen. lia.
Qed.

Lemma length_app (a b : string) :
  String.length (a ++ b) = (String.length a + String.length b)%nat.
Proof. induction a as [| c a' IH]; cbn; [reflexivity | now rewrite IH]. Qed.

Lemma app_assoc (a b c : string) : (a ++ b) ++ c = a ++ b ++ c.
Proof. induction a as [| x a' IH]; cbn; [reflexivity | now rewrite IH]. Qed.

Lemma upToClose_eq (s : string) :
  upToClose s =
  if startsWith s "</svg>" then Some "</svg>"
  else match s with
       | String c s' => option_map (String c) (upToClose s')
       | EmptyString => None
       end.
Proof. destruct s; reflexivity. Qed.

Lemma matchSvg_eq (h : string) :
  matchSvg h =
  match (if startsWith h "<svg"
         then option_map (append "<svg") (upToClose (drop 4 h))
         else None) with
  | Some m => Some m
  | None => match h with
            | String _ s' => matchSvg s'
            | EmptyString => None
            end
  end.
Proof. destruct h; reflexivity. Qed.

#[local] Opaque startsWith.

Lemma upToClose_sound (s m : string) :
  upToClose s = Some m ->
  exists mid post, m = mid ++ "</svg>" /\ s = m ++ post.
Proof.
  revert m. induction s as [| c s' IH]; intro m; rewrite upToClose_eq.
  - destruct (startsWith EmptyString "</svg>") eqn:E; [|discriminate].
    apply startsWith_iff in E. destruct E as [rest E]. discriminate.
  - destruct (startsWith (String c s') "</svg>") eqn:E.
    + intros [= <-]. apply startsWith_iff in E. destruct E as [rest E].
      exists EmptyString, rest. split; [reflexivity | exact E].
    + destruct (upToClose s') as [m'|]; [|discriminate].
      intros [= <-]. destruct (IH m' eq_refl) as (mid & post & -> & Hs).
      exists (String c mid), post. split; [reflexivity|]. cbn. now rewrite <- Hs.
Qed.

Lemma upToClose_complete (mid post : string) :
  exists m, upToClose (mid ++ "</svg>" ++ post) = Some m.
Proof.
  induction mid as [| c mid' IH]; rewrite upToClose_eq.
  - assert (E : startsWith (EmptyString ++ "</svg>" ++ post) "</svg>" = true)
      by (apply startsWith_iff; now exists post).
    rewrite E. now eexists.
  - destruct (startsWith (String c mid' ++ "</svg>" ++ post) "</svg>");
      [now eexists|].
    change (exists m, option_map (String c) (upToClose (mid' ++ "</svg>" ++ post)) = Some m).
    destruct IH as [m ->]. now eexists.
Qed.

(** Where the closing tag does not start inside [mid], the front that
    [upToClose] returns is [mid] and the closing tag. *)
Lemma upToClose_first (mid post : string) :
  includes (mid ++ "</svg") "</svg>" = false ->
  upToClose (mid ++ "</svg>" ++ post) = Some (mid ++ "</svg>").
Proof.
  induction mid as [| c mid' IH]; intro Hfree; rewrite upToClose_eq.
  - assert (E : startsWith (EmptyString ++ "</svg>" ++ post) "</svg>" = true)
      by (apply startsWith_iff; now exists post).
    now rewrite E.
  - cbn [append includes] in Hfree. apply orb_false_iff in Hfree.
    destruct Hfree as [Hhere Hlater].
    assert (E : startsWith (String c mid' ++ "</svg>" ++ post) "</svg>" = false).
    { change ("</svg>" ++ post) with ("</svg" ++ (">" ++ post)).
      rewrite <- app_assoc, startsWith_short; [exact Hhere|].
      rewrite length_app. cbn. lia. }
    rewrite E.
    change (option_map (String c) (upToClose (mid' ++ "</svg>" ++ post))
            = Some (String c mid' ++ "</svg>")).
    now rewrite (IH Hlater).
Qed.

(** The match succeeds exactly on the texts that hold an opening [<svg]
    with a closing tag after it, and what it returns is a piece of the
    text that starts with [<svg] and ends with the closing tag. *)
Lemma matchSvg_finds_svg (fullHtml : string) :
  ((exists m, matchSvg fullHtml = Some m) <->
   (exists front mid back, fullHtml = front ++ "<svg" ++ mid ++ "</svg>" ++ back)) /\
  (forall m, matchSvg fullHtml = Some m ->
     exists front mid back,
       m = "<svg" ++ mid ++ "</svg>" /\ fullHtml = front ++ m ++ back).
Proof.
  assert (Hsound : forall h m, matchSvg h = Some m ->
            exists front mid back,
              m = "<svg" ++ mid ++ "</svg>" /\ h = front ++ m ++ back).
  { induction h as [| c h' IH]; intro m; rewrite matchSvg_eq.
    - destruct (startsWith EmptyString "<svg") eqn:E; [|discriminate].
      apply startsWith_iff in E. destruct E as [rest E]. discriminate.
    - destruct (startsWith (String c h') "<svg") eqn:E.
      + apply startsWith_iff in E. destruct E as [rest E]. rewrite E.
        change (drop 4 ("<svg" ++ rest)) with rest.
        destruct (upToClose rest) as [m'|] eqn:Hclose; cbn [option_map].
        * intros [= <-]. destruct (upToClose_sound rest m' Hclose) as (mid & back & -> & Hs).
          exists EmptyString, mid, back. split; [reflexivity|].
          rewrite Hs at 1. cbn [append]. now rewrite !app_assoc.
        * rewrite <- E. intro H. destruct (IH m H) as (front & mid & back & Hm & Hh).
          exists (String c front), mid, back. split; [exact Hm|]. cbn. now rewrite <- Hh.
      + intro H. destruct (IH m H) as (front & mid & back & Hm & Hh).
        exists (String c front), mid, back. split; [exact Hm|]. cbn. now rewrite <- Hh. }
  split; [|apply Hsound].
  split.
  - intros [m Hm]. destruct (Hsound _ _ Hm) as (front & mid & back & -> & ->).
    exists front, mid, back. now rewrite !app_assoc.
  - intros (front & mid & back & ->).
    induction front as [| c front' IH]; rewrite matchSvg_eq.
    + assert (E : startsWith (EmptyString ++ "<svg" ++ mid ++ "</svg>" ++ back) "<svg" = true)
        by (apply startsWith_iff; now eexists).
      rewrite E. change (drop 4 (EmptyString ++ "<svg" ++ mid ++ "</svg>" ++ back))
        with (mid ++ "</svg>" ++ back).
      destruct (upToClose_complete mid back) as [m ->]. now eexists.
    + destruct (if startsWith (String c front' ++ "<svg" ++ mid ++ "</svg>" ++ back) "<svg"
                then _ else None); [now eexists | exact IH].
Qed.

(** The match is the first one and the shortest one. *)
Lemma matchSvg_first_and_shortest (front mid back : string) :
  includes (front ++ "<sv") "<svg" = false ->
  includes (mid ++ "</svg") "</svg>" = false ->
  matchSvg (front ++ "<svg" ++ mid ++ "</svg>" ++ back)
  = Some ("<svg" ++ mid ++ "</svg>").
Proof.
  intros Hfront Hmid.
  induction front as [| c front' IH]; rewrite matchSvg_eq.
  - assert (E : startsWith (EmptyString ++ "<svg" ++ mid ++ "</svg>" ++ back) "<svg" = true)
      by (apply startsWith_iff; now eexists).
    rewrite E. change (drop 4 (EmptyString ++ "<svg" ++ mid ++ "</svg>" ++ back))
      with (mid ++ "</svg>" ++ back).
    now rewrite (upToClose_first mid back Hmid).
  - cbn [append includes] in Hfront. apply orb_false_iff in Hfront.
    destruct Hfront as [Hhere Hlater].
    assert (E : startsWith (String c front' ++ "<svg" ++ mid ++ "</svg>" ++ back) "<svg"
                = false).
    { change ("<svg" ++ mid ++ "</svg>" ++ back)
        with ("<sv" ++ ("g" ++ mid ++ "</svg>" ++ back)).
      rewrite <- app_assoc, startsWith_short; [exact Hhere|].
      rewrite length_app. cbn. lia. }
    rewrite E. exact (IH Hlater).
Qed.

End TextFacts.

(** ** The enumerator and the order of the directory *)

Module EnumeratorOrder.
Import JSString Core Vocabulary EnumeratorFacts.

Lemma le_antisym (a b : string) : le a b -> le b a -> a = b.
Proof. unfold le. intros Hab Hba. now apply String.leb_antisym. Qed.

Lemma le_refl (a : string) : le a a.
Proof. unfold le. destruct (String.leb_total a a); assumption. Qed.

(** A list has one sorted arrangement. *)
Lemma sorted_unique (l1 l2 : list string) :
  StronglySorted le l1 -> StronglySorted le l2 -> Permutation l1 l2 -> l1 = l2.
Proof.
  intro H1. revert l2.
  induction H1 as [| a l1' Hsorted1 IH Hall1]; intros l2 H2 Hperm.
  - now apply Permutation_nil in Hperm.
  - destruct H2 as [| b l2' Hsorted2 Hall2].
    + apply Permutation_sym, Permutation_nil in Hperm. discriminate.
    + assert (Hab : a = b).
      { apply le_antisym.
        - assert (Hin : In b (a :: l1'))
            by (apply (Permutation_in _ (Permutation_sym Hperm)); now left).
          destruct Hin as [-> | Hin]; [apply le_refl|].
          rewrite Forall_forall in Hall1. now apply Hall1.
        - assert (Hin : In a (b :: l2'))
            by (apply (Permutation_in _ Hperm); now left).
          destruct Hin as [-> | Hin]; [apply le_refl|].
          rewrite Forall_forall in Hall2. now apply Hall2. }
      subst b. f_equal. apply IH; [exact Hsorted2|].
      now apply Permutation_cons_inv in Hperm.
Qed.

Lemma filter_perm {A : Type} (f : A -> bool) (l l' : list A) :
  Permutation l l' -> Permutation (filter f l) (filter f l').
Proof.
  induction 1 as [| x l l' _ IH | x y l | l l' l'' _ IH1 _ IH2]; cbn.
  - constructor.
  - destruct (f x); [now constructor | exact IH].
  - destruct (f x), (f y); try reflexivity. apply perm_swap.
  - now transitivity (filter f l').
Qed.

(** X7: the order in which the directory hands out its entries does not
    show in the result. *)
Theorem listTexFiles_order_independent (items items' : list Dirent) :
  Permutation items items' -> listTexFiles items = listTexFiles items'.
Proof.
  intro Hperm. unfold listTexFiles.
  apply sorted_unique; try apply sort_sorted.
  rewrite !sort_perm. now apply Permutation_map, filter_perm.
Qed.

Lemma listTexFiles_order_independent_witness :
  listTexFiles [ {| name := "b.tex"; type := RegularFile |};
                 {| name := "A.TEX"; type := RegularFile |} ]
  = listTexFiles [ {| name := "A.TEX"; type := RegularFile |};
                   {| name := "b.tex"; type := RegularFile |} ].
Proof.
  apply (listTexFiles_order_independent
           [ {| name := "b.tex"; type := RegularFile |};
             {| name := "A.TEX"; type := RegularFile |} ]
           [ {| name := "A.TEX"; type := RegularFile |};
             {| name := "b.tex"; type := RegularFile |} ]).
  apply perm_swap.
Defined.

End EnumeratorOrder.

(** ** The two passes together, and what each leaves alone *)

Module PassFacts.
Import JSString JSNumber Dom Core Vocabulary RunVocabulary.
Import NumberFacts AttributeFacts TreeFacts MarginFacts OutlineFacts.

#[local] Opaque toString Number parseFloat.

(** *** A loop over the elements of one name, seen from another name *)

Section OtherName.
Variables tag tag' : string.
Variable f : list attribute -> list attribute.

Lemma elementsIn_update_any (n : node) :
  elementsIn tag (updateElements tag' f n)
  = map (updateElements tag' f) (elementsIn tag n).
Proof.
  induction n as [t attrs children IH | data] using node_ind; [|reflexivity].
  cbn [elementsIn updateElements]. rewrite map_app. f_equal.
  - destruct (String.eqb t tag); reflexivity.
  - induction IH as [| c rest Hc _ IHrest]; [reflexivity|].
    cbn [map flat_map]. now rewrite map_app, Hc, IHrest.
Qed.

Lemma getElementsByTagName_update_any (doc : document) :
  getElementsByTagName tag (map (updateElements tag' f) doc)
  = map (updateElements tag' f) (getElementsByTagName tag doc).
Proof.
  unfold getElementsByTagName.
  induction doc as [| n rest IH]; [reflexivity|].
  cbn [map flat_map]. now rewrite map_app, elementsIn_update_any, IH.
Qed.

Hypothesis other : tag <> tag'.

Lemma attributesOf_update_other (e : node) :
  tagNameOf e = Some tag -> attributesOf (updateElements tag' f e) = attributesOf e.
Proof.
  destruct e as [t attrs children | data]; [|discriminate].
  cbn. intros [= ->]. destruct (String.eqb_spec tag tag'); [contradiction | reflexivity].
Qed.

Lemma attributes_update_other (doc : document) :
  map attributesOf (getElementsByTagName tag (map (updateElements tag' f) doc))
  = map attributesOf (getElementsByTagName tag doc).
Proof.
  rewrite getElementsByTagName_update_any, map_map.
  apply map_ext_Forall.
  eapply Forall_impl; [|apply getElementsByTagName_named].
  intros e He. now apply attributesOf_update_other.
Qed.

(** Setting the attributes of the first [tag] and looping over the
    [tag'] can be done in either order. *)
Lemma updateFirst_update_commute (attrs' : list attribute) (nodes : list node) :
  updateFirst tag attrs' (map (updateElements tag' f) nodes)
  = option_map (map (updateElements tag' f)) (updateFirst tag attrs' nodes).
Proof.
  assert (Hnode : forall n,
             updateFirstIn tag attrs' (updateElements tag' f n)
             = option_map (updateElements tag' f) (updateFirstIn tag attrs' n)).
  { induction n as [t attrs children IH | data] using node_ind; [|reflexivity].
    cbn [updateElements]. rewrite !updateFirstIn_children.
    destruct (String.eqb_spec t tag) as [-> | Hne].
    - cbn [option_map updateElements].
      destruct (String.eqb_spec tag tag'); [contradiction | reflexivity].
    - assert (Hkids : updateFirst tag attrs' (map (updateElements tag' f) children)
                      = option_map (map (updateElements tag' f))
                          (updateFirst tag attrs' children)).
      { induction IH as [| c rest Hc _ IHrest]; [reflexivity|].
        cbn [map updateFirst]. rewrite Hc.
        destruct (updateFirstIn tag attrs' c); [reflexivity|].
        cbn [option_map]. rewrite IHrest.
        now destruct (updateFirst tag attrs' rest). }
      rewrite Hkids. now destruct (updateFirst tag attrs' children). }
  induction nodes as [| c rest IH]; [reflexivity|].
  cbn [map updateFirst]. rewrite Hnode.
  destruct (updateFirstIn tag attrs' c); [reflexivity|].
  cbn [option_map]. rewrite IH. now destruct (updateFirst tag attrs' rest).
Qed.

End OtherName.

(** X8: the two passes can be run in either order: the margin pass on the
    outlined document gives the outlined result of the margin pass, and
    hands its input back in the same cases. *)
Theorem margin_and_outline_commute (doc : document) (opts : OutlineOpts) (m : number) :
  addMarginToSvg (addOutlineToMathJaxSvg doc opts) m
  = option_map (fun doc' => addOutlineToMathJaxSvg doc' opts) (addMarginToSvg doc m).
Proof.
  unfold addMarginToSvg, addOutlineToMathJaxSvg.
  destruct (m <=? 0)%float; [reflexivity|].
  rewrite getElementsByTagName_update_any.
  pose proof (getElementsByTagName_named "svg" doc) as Hnamed.
  destruct (getElementsByTagName "svg" doc) as [| e rest]; [reflexivity|].
  cbn [map]. inversion Hnamed as [| ? ? He _]; subst.
  rewrite (attributesOf_update_other "svg" "path" _ ltac:(discriminate) e He).
  destruct (expandSvgElement (attributesOf e) m) as [attrs'|]; [|reflexivity].
  apply updateFirst_update_commute. discriminate.
Qed.

(** *** What the margin pass leaves alone *)

Lemma eraseAttributes_updateFirst (tag : string) (attrs' : list attribute)
    (nodes nodes' : list node) :
  updateFirst tag attrs' nodes = Some nodes' ->
  map (eraseAttributes tag) nodes' = map (eraseAttributes tag) nodes.
Proof.
  assert (Hnode : forall n n',
             updateFirstIn tag attrs' n = Some n' ->
             eraseAttributes tag n' = eraseAttributes tag n).
  { unfold eraseAttributes.
    induction n as [t attrs children IH | data] using node_ind; [|discriminate].
    intro n'. rewrite updateFirstIn_children.
    destruct (String.eqb t tag) eqn:E.
    - intros [= <-]. cbn [updateElements]. now rewrite E.
    - destruct (updateFirst tag attrs' children) as [children'|] eqn:Hkids;
        [|discriminate].
      intros [= <-]. cbn [updateElements]. f_equal.
      clear E. revert children' Hkids.
      induction IH as [| c rest Hc _ IHrest]; intros children' Hkids; [discriminate|].
      cbn [updateFirst] in Hkids.
      destruct (updateFirstIn tag attrs' c) as [c'|] eqn:Hfirst.
      + injection Hkids as <-. cbn [map]. f_equal. now apply Hc.
      + destruct (updateFirst tag attrs' rest) as [rest'|]; [|discriminate].
        injection Hkids as <-. cbn [map]. f_equal. now apply IHrest. }
  revert nodes'. induction nodes as [| c rest IH]; intros nodes' H; [discriminate|].
  cbn [updateFirst] in H.
  destruct (updateFirstIn tag attrs' c) as [c'|] eqn:Hfirst.
  - injection H as <-. cbn [map]. f_equal. now apply Hnode.
  - destruct (updateFirst tag attrs' rest) as [rest'|]; [|discriminate].
    injection H as <-. cbn [map]. f_equal. now apply IH.
Qed.

Lemma addMarginToSvg_updateFirst (doc doc' : document) (m : number) :
  addMarginToSvg doc m = Some doc' ->
  exists attrs', updateFirst "svg" attrs' doc = Some doc'.
Proof.
  unfold addMarginToSvg. destruct (m <=? 0)%float; [discriminate|].
  destruct (getElementsByTagName "svg" doc) as [| e rest]; [discriminate|].
  destruct (expandSvgElement (attributesOf e) m) as [attrs'|]; [|discriminate].
  intro H. now exists attrs'.
Qed.

(** X9: when the margin pass rewrites the document, it rewrites the
    attributes of the first [svg] element and nothing else: the other
    [svg] elements, the children of the first one, the attributes of the
    elements of every other name (the outlined paths among them) and the
    tree itself are as they were. *)
Theorem addMarginToSvg_changes_one_element (doc doc' : document) (m : number) :
  addMarginToSvg doc m = Some doc' ->
  (exists attrs attrs' children others,
      getElementsByTagName "svg" doc = Element "svg" attrs children :: others /\
      getElementsByTagName "svg" doc' = Element "svg" attrs' children :: others) /\
  map (eraseAttributes "svg") doc' = map (eraseAttributes "svg") doc /\
  (forall tag, tag <> "svg" ->
     map attributesOf (getElementsByTagName tag doc')
     = map attributesOf (getElementsByTagName tag doc)).
Proof.
  intro H. destruct (addMarginToSvg_updateFirst doc doc' m H) as [attrs' Hup].
  assert (Herase := eraseAttributes_updateFirst "svg" attrs' doc doc' Hup).
  split; [|split; [exact Herase|]].
  - destruct (updateFirst_spec "svg" attrs' doc)
      as [[_ Hnone] | (a & ch & r & Hs & nodes' & Hu & Hg)]; [congruence|].
    assert (nodes' = doc') by congruence. subst nodes'.
    now exists a, attrs', ch, r.
  - intros tag Htag.
    rewrite <- (attributes_update_other tag "svg" (fun _ => []) Htag doc').
    rewrite <- (attributes_update_other tag "svg" (fun _ => []) Htag doc).
    assert (Herase' : map (updateElements "svg" (fun _ => [])) doc'
                      = map (updateElements "svg" (fun _ => [])) doc)
      by exact Herase.
    now rewrite Herase'.
Qed.

Lemma addMarginToSvg_changes_one_element_witness :
  (exists attrs attrs' children others,
      getElementsByTagName "svg" (sized "0 0 100 50" "10ex" "5ex")
        = Element "svg" attrs children :: others /\
      getElementsByTagName "svg" (sized "-20 -20 140 90" "14ex" "7ex")
        = Element "svg" attrs' children :: others) /\
  map (eraseAttributes "svg") (sized "-20 -20 140 90" "14ex" "7ex")
    = map (eraseAttributes "svg") (sized "0 0 100 50" "10ex" "5ex") /\
  (forall tag, tag <> "svg" ->
     map attributesOf (getElementsByTagName tag (sized "-20 -20 140 90" "14ex" "7ex"))
     = map attributesOf (getElementsByTagName tag (sized "0 0 100 50" "10ex" "5ex"))).
Proof.
  apply (addMarginToSvg_changes_one_element
           (sized "0 0 100 50" "10ex" "5ex") (sized "-20 -20 140 90" "14ex" "7ex")
           20%float).
  vm_compute. reflexivity.
Defined.

(** X10: of the attributes of that element the pass touches [viewBox],
    [width] and [height] only. *)
Theorem addMarginToSvg_keeps_other_attributes
    (doc doc' : document) (m : number) (attrs attrs' : list attribute) (k : string) :
  addMarginToSvg doc m = Some doc' ->
  svgAttributes doc = Some attrs ->
  svgAttributes doc' = Some attrs' ->
  k <> "viewBox" -> k <> "width" -> k <> "height" ->
  getAttribute k attrs' = getAttribute k attrs.
Proof.
  intros Hdoc Hsvg Hsvg' Hv Hw Hh.
  destruct (addMarginToSvg_inv doc doc' m Hdoc) as (_ & a & a' & Ha & Hex & Ha').
  assert (a = attrs) by congruence. assert (a' = attrs') by congruence. subst a a'.
  destruct (expandSvgElement_inv attrs attrs' m Hex)
    as (viewBox & x & y & w & h & _ & _ & ->).
  unfold expanded. cbv zeta.
  destruct (presentWithoutPercent (getAttribute "width" attrs) && _);
    [destruct (presentWithoutPercent (getAttribute "height" attrs))|];
    now rewrite !get_set_other.
Qed.

Lemma addMarginToSvg_keeps_other_attributes_witness :
  getAttribute "xmlns" [("xmlns", "http://www.w3.org/2000/svg"); ("viewBox", "-20 -20 140 90")]
  = getAttribute "xmlns" [("xmlns", "http://www.w3.org/2000/svg"); ("viewBox", "0 0 100 50")].
Proof.
  apply (addMarginToSvg_keeps_other_attributes
           [Element "svg" [("xmlns", "http://www.w3.org/2000/svg"); ("viewBox", "0 0 100 50")] []]
           [Element "svg" [("xmlns", "http://www.w3.org/2000/svg"); ("viewBox", "-20 -20 140 90")] []]
           20%float
           [("xmlns", "http://www.w3.org/2000/svg"); ("viewBox", "0 0 100 50")]
           [("xmlns", "http://www.w3.org/2000/svg"); ("viewBox", "-20 -20 140 90")]
           "xmlns");
    try discriminate; vm_compute; reflexivity.
Defined.

(** X11: the margin pass leaves through one of its [return svgText]
    statements, before it sets an attribute and without serializing the
    document, in these cases and in no other: the margin is at most zero,
    there is no [svg] element, its first [svg] element has no [viewBox],
    or the [viewBox] does not split at white space into four parts.  In
    every other case it sets the [viewBox] and returns the document it
    has written to, which can be the document it was given: the view box
    [1e+21 1e+21 1e+21 1e+21] with the margin 20 is set to itself. *)
Theorem addMarginToSvg_early_return_iff :
  (forall (doc : document) (m : number),
      addMarginToSvg doc m = None <->
      (m <=? 0)%float = true \/
      svgAttributes doc = None \/
      (exists attrs,
          svgAttributes doc = Some attrs /\
          (getAttribute "viewBox" attrs = None \/
           exists viewBox,
             getAttribute "viewBox" attrs = Some viewBox /\
             List.length (split_whitespace viewBox) <> 4%nat))) /\
  addMarginToSvg [Element "svg" [("viewBox", "1e+21 1e+21 1e+21 1e+21")] []] 20%float
  = Some [Element "svg" [("viewBox", "1e+21 1e+21 1e+21 1e+21")] []].
Proof.
  split; [|vm_compute; reflexivity].
  intros doc m.
  split; [|apply addMarginToSvg_returns_input].
  intro Hnone.
  destruct (m <=? 0)%float eqn:Hm; [now left|]. right.
  destruct (svgAttributes doc) as [attrs|] eqn:Hsvg; [|now left]. right.
  exists attrs. split; [reflexivity|].
  destruct (getAttribute "viewBox" attrs) as [viewBox|] eqn:Hvb; [|now left]. right.
  exists viewBox. split; [reflexivity|]. intro Hlen.
  rewrite <- (length_map Number) in Hlen.
  destruct (map Number (split_whitespace viewBox))
    as [| x [| y [| w [| h [| ? ?]]]]] eqn:Hparts; try discriminate.
  pose proof (addMarginToSvg_element doc m attrs Hm Hsvg) as He.
  rewrite (expandSvgElement_four_parts attrs m viewBox x y w h Hvb Hparts) in He.
  destruct He as (doc' & Hdoc & _). congruence.
Qed.

(** *** What the outline pass leaves alone *)

Lemma set_absent (k v : string) (attrs : list attribute) :
  getAttribute k attrs = None -> setAttribute k v attrs = (attrs ++ [(k, v)])%list.
Proof.
  induction attrs as [| [k0 v0] rest IH]; cbn; [reflexivity|].
  destruct (String.eqb k0 k); [discriminate|]. intro H. now rewrite IH.
Qed.

Lemma setOutline_appends (opts : OutlineOpts) (p : list attribute) :
  getAttribute "stroke" p = None ->
  getAttribute "stroke-width" p = None ->
  getAttribute "paint-order" p = None ->
  getAttribute "stroke-linejoin" p = None ->
  setOutline opts p
  = (p ++ [("stroke", stroke opts);
           ("stroke-width", toString (strokeWidth opts));
           ("paint-order", "stroke fill");
           ("stroke-linejoin", "round")])%list.
Proof.
  intros H1 H2 H3 H4. unfold setOutline.
  rewrite (set_absent "stroke") by exact H1.
  rewrite (set_absent "stroke-width")
    by (rewrite <- (set_absent "stroke") by exact H1;
        now rewrite get_set_other by discriminate).
  rewrite (set_absent "paint-order")
    by (rewrite <- (set_absent "stroke-width")
          by (rewrite <- (set_absent "stroke") by exact H1;
              now rewrite get_set_other by discriminate);
        rewrite get_set_other by discriminate;
        rewrite <- (set_absent "stroke") by exact H1;
        now rewrite get_set_other by discriminate).
  rewrite (set_absent "stroke-linejoin").
  - now rewrite <- !List.app_assoc.
  - rewrite <- !List.app_assoc. cbn [app].
    clear - H4. induction p as [| [k0 v0] rest IH]; [reflexivity|].
    cbn in *. destruct (String.eqb k0 "stroke-linejoin"); [discriminate | now apply IH].
Qed.

(** X12: the outline pass keeps every other attribute of a [path], its
    [d] and its [fill] among them, and on a [path] that has none of the
    four it adds them after the attributes that are there, in the order
    [stroke], [stroke-width], [paint-order], [stroke-linejoin]. *)
Theorem addOutlineToMathJaxSvg_keeps_other_attributes
    (doc : document) (opts : OutlineOpts) :
  Forall2 (kept opts)
    (getElementsByTagName "path" doc)
    (getElementsByTagName "path" (addOutlineToMathJaxSvg doc opts)).
Proof.
  unfold addOutlineToMathJaxSvg.
  rewrite getElementsByTagName_update. apply Forall2_map_r.
  eapply Forall_impl; [|apply getElementsByTagName_named].
  intros p Hp. unfold kept.
  rewrite (attributesOf_update _ _ _ Hp). unfold outlinePath. cbv zeta.
  destruct (isNone (getAttribute "fill" (attributesOf p))) eqn:Hfill.
  - split; [reflexivity|]. apply isNone_iff in Hfill. intro. contradiction.
  - split.
    + intros k. apply setOutline_other.
    + intros _. apply setOutline_appends.
Qed.

End PassFacts.

(** ** The run, file by file *)

Module RunFacts.
Import JSString JSNumber Dom Vocabulary RunVocabulary TextFacts BatchFacts.

#[local] Opaque toString Math_round.

Lemma trimStart_empty_iff (s : string) :
  trimStart s = EmptyString <-> allWhiteSpace s = true.
Proof.
  induction s as [| c s' IH]; cbn; [split; reflexivity|].
  destruct (isWhiteSpace c); cbn; [exact IH | split; discriminate].
Qed.

Lemma trim_empty_iff (s : string) :
  trim s = EmptyString <-> allWhiteSpace s = true.
Proof.
  rewrite <- trimStart_empty_iff. unfold trim.
  pose proof (trimStart_head s) as Hhead.
  destruct (trimStart s) as [| c u]; [split; reflexivity|].
  cbn [trimEnd]. rewrite Hhead.
  split; [destruct (trimEnd u); discriminate | discriminate].
Qed.

Lemma isEmpty_iff (s : string) : isEmpty s = true <-> s = EmptyString.
Proof. destruct s; split; (reflexivity || discriminate). Qed.

Lemma filter_logs (lines : list string) : filter isWrite (map ConsoleLog lines) = [].
Proof. induction lines; [reflexivity | exact IHlines]. Qed.

Section WithEnvironment.
Variable env : Environment.

(** *** The margin pass of the run *)

Lemma filter_reports (printed : list diagnostic) :
  filter isWrite (map report printed) = [].
Proof.
  induction printed as [| [line | line] rest IH]; [reflexivity | exact IH | exact IH].
Qed.

Lemma reports_are_output (targetDir file : string) (printed : list diagnostic) :
  Forall (outputOf env targetDir file) (map report printed).
Proof.
  induction printed as [| [line | line] rest IH]; constructor; (exact I || exact IH).
Qed.

Lemma logs_are_output (targetDir file : string) (lines : list string) :
  Forall (outputOf env targetDir file) (map ConsoleLog lines).
Proof. induction lines; constructor; (exact I || assumption). Qed.

Lemma addMarginToSvg_parsed (svgText : string) (m : number)
    (printed : list diagnostic) (doc : document) :
  (m <=? 0)%float = false ->
  parseFromString env svgText = (printed, Returned doc) ->
  addMarginToSvg env svgText m
  = ((map report printed ++ map ConsoleLog (marginLinesOf doc m))%list,
     Returned (marginTextOf env svgText doc m)).
Proof.
  intros Hm Hparse.
  unfold addMarginToSvg, marginLinesOf, marginTextOf, Core.addMarginToSvg,
    Core.expandSvgElement.
  rewrite Hm, (parseDocument_eq env _ _ _ Hparse), bind_returned.
  destruct (getElementsByTagName "svg" doc) as [| svgElement rest]; [reflexivity|].
  destruct (Core.expandLogged (attributesOf svgElement) m) as [lines [attrs'|]];
    rewrite forEach_emit, bind_returned; cbn [fst snd].
  - destruct (updateFirst "svg" attrs' doc);
      cbn [ret fst snd]; now rewrite List.app_nil_r.
  - cbn [ret fst snd]. now rewrite List.app_nil_r.
Qed.

Lemma addMarginToSvg_unparsed (svgText : string) (m : number)
    (printed : list diagnostic) (e : string) :
  (m <=? 0)%float = false ->
  parseFromString env svgText = (printed, Thrown e) ->
  addMarginToSvg env svgText m = (map report printed, Thrown e).
Proof.
  intros Hm Hparse. unfold addMarginToSvg.
  now rewrite Hm, (parseDocument_eq env _ _ _ Hparse).
Qed.

Lemma addMarginToSvg_run (svgText : string) (m : number) :
  (m <=? 0)%float = false ->
  addMarginToSvg env svgText m
  = (marginEvents env svgText m,
     match snd (parseFromString env svgText) with
     | Returned _ => Returned (marginText env svgText m)
     | Thrown e => Thrown e
     end).
Proof.
  intro Hm. unfold marginEvents, marginText.
  destruct (parseFromString env svgText) as [printed [doc | e]] eqn:Hparse; cbn [fst snd].
  - apply (addMarginToSvg_parsed _ _ _ _ Hm Hparse).
  - rewrite List.app_nil_r. apply (addMarginToSvg_unparsed _ _ _ _ Hm Hparse).
Qed.

Lemma marginEvents_not_writes (svgText : string) (m : number) :
  filter isWrite (marginEvents env svgText m) = [].
Proof.
  unfold marginEvents. rewrite filter_app, filter_reports.
  destruct (snd (parseFromString env svgText)); [apply filter_logs | reflexivity].
Qed.

Lemma marginEvents_are_output (targetDir file svgText : string) (m : number) :
  Forall (outputOf env targetDir file) (marginEvents env svgText m).
Proof.
  unfold marginEvents. apply Forall_app. split; [apply reports_are_output|].
  destruct (snd (parseFromString env svgText)); [apply logs_are_output | constructor].
Qed.

Lemma expandLogged_lines (attrs : list attribute) (m : number) :
  (List.length (fst (Core.expandLogged attrs m)) <= 4)%nat.
Proof.
  unfold Core.expandLogged.
  destruct (getAttribute "viewBox" attrs) as [viewBox|]; [|cbn; lia].
  destruct (isEmpty viewBox); [cbn; lia|].
  destruct (map Number (split_whitespace viewBox))
    as [| x [| y [| w [| h [| ? ?]]]]]; try (cbn; lia).
  cbv zeta.
  repeat match goal with |- context [if ?c then _ else _] => destruct c end;
    cbn [fst List.length]; lia.
Qed.

(** X13: the margin pass of the run never writes.  With a margin that is
    at most zero it returns the text it was given, without an event and
    without parsing it.  With any other margin it parses the text: where
    the parser throws, the pass throws that error after what the parser
    printed; where the parser returns a document, the events of the pass
    are what the parser printed and then at most four lines on
    [console.log], and it returns the text of the rewritten document, or
    the text it was given where the pass on documents leaves early. *)
Theorem addMarginToSvg_parses_then_logs (svgText : string) (m : number) :
  ((m <=? 0)%float = true ->
   addMarginToSvg env svgText m = ([], Returned svgText)) /\
  ((m <=? 0)%float = false ->
   (forall printed e,
       parseFromString env svgText = (printed, Thrown e) ->
       addMarginToSvg env svgText m = (map report printed, Thrown e)) /\
   (forall printed doc,
       parseFromString env svgText = (printed, Returned doc) ->
       exists lines,
         addMarginToSvg env svgText m
         = ((map report printed ++ map ConsoleLog lines)%list,
            Returned match Core.addMarginToSvg doc m with
                     | Some doc' => serializeToString env doc'
                     | None => svgText
                     end) /\
         (List.length lines <= 4)%nat)) /\
  filter isWrite (fst (addMarginToSvg env svgText m)) = [].
Proof.
  split; [|split].
  - intro Hm. unfold addMarginToSvg. now rewrite Hm.
  - intro Hm. split.
    + intros printed e Hparse. apply (addMarginToSvg_unparsed _ _ _ _ Hm Hparse).
    + intros printed doc Hparse. exists (marginLinesOf doc m). split.
      * apply (addMarginToSvg_parsed _ _ _ _ Hm Hparse).
      * unfold marginLinesOf.
        destruct (getElementsByTagName "svg" doc); [cbn; lia | apply expandLogged_lines].
  - destruct (m <=? 0)%float eqn:Hm.
    + unfold addMarginToSvg. now rewrite Hm.
    + rewrite (addMarginToSvg_run _ _ Hm). apply marginEvents_not_writes.
Qed.

(** *** [renderOne] *)

Lemma renderOne_found (latex : string) (display : bool) (fullHtml piece : string) :
  convert env latex display = Returned fullHtml ->
  Core.matchSvg fullHtml = Some piece ->
  renderOne env latex display = outlinedPiece env piece.
Proof.
  intros Hconvert Hmatch. unfold renderOne, ask, outlinedPiece.
  rewrite Hconvert, bind_returned. cbn [app]. rewrite Hmatch.
  unfold addOutlineToMathJaxSvg, parseDocument.
  destruct (parseFromString env piece) as [printed [doc | e]]; cbn [fst snd].
  - cbn [bind ret app fst snd]. now rewrite !List.app_nil_r.
  - reflexivity.
Qed.

(** The only events of [renderOne] are the lines its parser prints. *)
Lemma renderOne_prints (latex : string) (display : bool) :
  exists printed, fst (renderOne env latex display) = map report printed.
Proof.
  destruct (convert env latex display) as [fullHtml | e] eqn:Hconvert.
  2:{ exists []. unfold renderOne, ask. now rewrite Hconvert. }
  destruct (Core.matchSvg fullHtml) as [piece |] eqn:Hmatch.
  - rewrite (renderOne_found _ _ _ _ Hconvert Hmatch). unfold outlinedPiece.
    destruct (parseFromString env piece) as [printed [doc | e]]; now exists printed.
  - exists []. unfold renderOne, ask. rewrite Hconvert, bind_returned. cbn [app].
    now rewrite Hmatch.
Qed.

Lemma renderOne_not_writes (latex : string) (display : bool) :
  filter isWrite (fst (renderOne env latex display)) = [].
Proof.
  destruct (renderOne_prints latex display) as [printed ->]. apply filter_reports.
Qed.

Lemma renderOne_is_output (targetDir file latex : string) (display : bool) :
  Forall (outputOf env targetDir file) (fst (renderOne env latex display)).
Proof.
  destruct (renderOne_prints latex display) as [printed ->]. apply reports_are_output.
Qed.

(** X5: the only events of [renderOne] are the lines its parser prints.
    It throws what the typesetter throws, without an event; it throws
    its own error, without an event, when the typesetter's text holds no
    [<svg] with a closing tag after it; otherwise it hands a piece of
    that text that starts with [<svg] and ends with the closing tag to
    the parser, throws what the parser throws on that piece, and returns
    the outlined, wrapped text of the document the parser returns. *)
Theorem renderOne_outcomes (latex : string) (display : bool) :
  (exists printed, fst (renderOne env latex display) = map report printed) /\
  (forall e, convert env latex display = Thrown e ->
             renderOne env latex display = ([], Thrown e)) /\
  (forall fullHtml,
      convert env latex display = Returned fullHtml ->
      ((~ exists front mid back,
            fullHtml = front ++ "<svg" ++ mid ++ "</svg>" ++ back) ->
       renderOne env latex display
       = ([], Thrown "No SVG element found in MathJax output")) /\
      ((exists front mid back,
           fullHtml = front ++ "<svg" ++ mid ++ "</svg>" ++ back) ->
       exists front mid back,
         fullHtml = front ++ ("<svg" ++ mid ++ "</svg>") ++ back /\
         renderOne env latex display
         = match parseFromString env ("<svg" ++ mid ++ "</svg>") with
           | (printed, Returned doc) =>
               (map report printed,
                Returned (Core.wrapSvg
                            (serializeToString env
                               (Core.addOutlineToMathJaxSvg doc outlineOfRun))))
           | (printed, Thrown e) => (map report printed, Thrown e)
           end)).
Proof.
  split; [apply renderOne_prints|]. split.
  - intros e Hconvert. unfold renderOne, ask. now rewrite Hconvert.
  - intros fullHtml Hconvert.
    destruct (matchSvg_finds_svg fullHtml) as [Hiff Hsound].
    split.
    + intro Hno. unfold renderOne, ask. rewrite Hconvert, bind_returned. cbn [app].
      destruct (Core.matchSvg fullHtml) as [piece |] eqn:Hmatch; [|reflexivity].
      exfalso. apply Hno, Hiff. now exists piece.
    + intro Hex. apply Hiff in Hex. destruct Hex as [piece Hmatch].
      destruct (Hsound piece Hmatch) as (front & mid & back & Hpiece & Hhtml).
      exists front, mid, back. rewrite <- Hpiece. split; [exact Hhtml|].
      apply (renderOne_found _ _ _ _ Hconvert Hmatch).
Qed.

(** X6: the piece is the first [<svg] and runs to the first closing tag
    after it: where [<svg] does not start inside [front] and the closing
    tag does not start inside [mid], the text [renderOne] hands to the
    parser is [<svg], [mid] and the closing tag, whatever comes after,
    so that an [svg] element inside [mid] is cut at its own closing tag;
    [renderOne] throws what the parser throws on that piece, and returns
    the outlined, wrapped text of the document the parser returns. *)
Theorem renderOne_first_and_shortest
    (latex : string) (display : bool) (front mid back : string) :
  convert env latex display = Returned (front ++ "<svg" ++ mid ++ "</svg>" ++ back) ->
  includes (front ++ "<sv") "<svg" = false ->
  includes (mid ++ "</svg") "</svg>" = false ->
  renderOne env latex display
  = match parseFromString env ("<svg" ++ mid ++ "</svg>") with
    | (printed, Returned doc) =>
        (map report printed,
         Returned (Core.wrapSvg
                     (serializeToString env
                        (Core.addOutlineToMathJaxSvg doc outlineOfRun))))
    | (printed, Thrown e) => (map report printed, Thrown e)
    end.
Proof.
  intros Hconvert Hfront Hmid.
  apply (renderOne_found _ _ _ _ Hconvert
           (matchSvg_first_and_shortest front mid back Hfront Hmid)).
Qed.

(** *** One turn of the loop *)

Section OneFile.
Variable cfg : RenderConfig.
Variables sourceDir targetDir file : string.

Let m : number := match margin cfg with Some m => m | None => 0%float end.
Let scale : number := match pngScale cfg with Some s => s | None => 1%float end.
Let density : number := Math_round (72 * scale)%float.
Let svgPath : string := path_join env targetDir (Core.slugify file ++ ".svg").
Let pngPath : string := path_join env targetDir (Core.slugify file ++ ".png").

(** The turn for a file that is read and rendered, up to the first
    write. *)
Lemma processFile_from_margin (content svg0 : string) :
  fs_readFile env (path_join env sourceDir file) = Returned content ->
  trim content <> EmptyString ->
  snd (renderOne env (trim content) (display cfg)) = Returned svg0 ->
  processFile env cfg sourceDir targetDir file
  = bind (fst (renderOne env (trim content) (display cfg)), Returned svg0)
      (fun svg0 =>
         svg <- (if (0 <? m)%float then addMarginToSvg env svg0 m else ret svg0) ;;
         perform (WriteFile svgPath svg) (fs_writeFile env svgPath svg) ;;;
         emit (ConsoleLog ("Wrote " ++ path_relative_cwd env svgPath
                           ++ (if (0 <? m)%float
                               then " (margin: " ++ toString m ++ ")"
                               else ""))) ;;;
         perform (WritePng pngPath svg density) (toFile env svg density pngPath) ;;;
         emit (ConsoleLog ("Wrote " ++ path_relative_cwd env pngPath
                           ++ " (scale: " ++ toString scale ++ "x"
                           ++ (if (0 <? m)%float
                               then ", margin: " ++ toString m
                               else "")
                           ++ ")"))).
Proof.
  intros Hread Hnonempty Hrender.
  assert (Hempty : isEmpty (trim content) = false).
  { destruct (isEmpty (trim content)) eqn:E; [|reflexivity].
    apply isEmpty_iff in E. contradiction. }
  unfold processFile. rewrite Hread. unfold ask. rewrite bind_returned.
  cbn [app]. rewrite Hempty.
  destruct (renderOne env (trim content) (display cfg)) as [t r].
  cbn [fst snd] in *. subst r. exact (eq_sym (surjective_pairing _)).
Qed.

(** The turn for a file that is read and rendered, where the margin pass
    returns, by what the two writes do. *)
Lemma processFile_rendered (content svg0 : string) :
  fs_readFile env (path_join env sourceDir file) = Returned content ->
  trim content <> EmptyString ->
  snd (renderOne env (trim content) (display cfg)) = Returned svg0 ->
  ((0 <? m)%float = true -> parses env svg0) ->
  let svg := if (0 <? m)%float then marginText env svg0 m else svg0 in
  exists logs line1 line2,
    filter isWrite logs = [] /\
    Forall (outputOf env targetDir file) logs /\
    processFile env cfg sourceDir targetDir file
    = match fs_writeFile env svgPath svg with
      | Thrown e => (logs, Thrown e)
      | Returned _ =>
          match toFile env svg density pngPath with
          | Thrown e =>
              ((logs ++ [WriteFile svgPath svg; ConsoleLog line1])%list, Thrown e)
          | Returned _ =>
              ((logs ++ [WriteFile svgPath svg; ConsoleLog line1;
                         WritePng pngPath svg density; ConsoleLog line2])%list,
               Returned tt)
          end
      end.
Proof.
  intros Hread Hnonempty Hrender Hparses svg.
  exists (fst (renderOne env (trim content) (display cfg))
          ++ (if (0 <? m)%float then marginEvents env svg0 m else []))%list.
  do 2 eexists. split; [|split].
  - rewrite filter_app, renderOne_not_writes.
    destruct (0 <? m)%float; [apply marginEvents_not_writes | reflexivity].
  - apply Forall_app. split; [apply renderOne_is_output|].
    destruct (0 <? m)%float; [apply marginEvents_are_output | constructor].
  - rewrite (processFile_from_margin content svg0 Hread Hnonempty Hrender).
    assert (Hmargin : (if (0 <? m)%float then addMarginToSvg env svg0 m else ret svg0)
                      = ((if (0 <? m)%float then marginEvents env svg0 m else []),
                         Returned svg)).
    { subst svg. destruct (0 <? m)%float eqn:Hm; [|reflexivity].
      rewrite (addMarginToSvg_run _ _ (NumberFacts.positive_not_le_zero m Hm)).
      destruct (Hparses eq_refl) as (printed & doc & Hparse).
      now rewrite Hparse. }
    rewrite bind_returned, Hmargin, bind_returned.
    unfold perform, emit.
    destruct (fs_writeFile env svgPath svg) as [[] | e1].
    + rewrite bind_returned.
      destruct (toFile env svg density pngPath) as [[] | e2].
      * cbn [bind fst snd app]. rewrite ?List.app_nil_r, <- ?List.app_assoc.
        reflexivity.
      * cbn [bind fst snd app]. rewrite ?List.app_nil_r, <- ?List.app_assoc.
        reflexivity.
    + cbn [bind fst snd app]. now rewrite ?List.app_nil_r.
Qed.

(** The turn for a file that is read and rendered, where the parser of
    the margin pass throws. *)
Lemma processFile_margin_throws (content svg0 : string)
    (printed : list diagnostic) (e : string) :
  fs_readFile env (path_join env sourceDir file) = Returned content ->
  trim content <> EmptyString ->
  snd (renderOne env (trim content) (display cfg)) = Returned svg0 ->
  (0 <? m)%float = true ->
  parseFromString env svg0 = (printed, Thrown e) ->
  processFile env cfg sourceDir targetDir file
  = ((fst (renderOne env (trim content) (display cfg)) ++ map report printed)%list,
     Thrown e).
Proof.
  intros Hread Hnonempty Hrender Hm Hparse.
  rewrite (processFile_from_margin content svg0 Hread Hnonempty Hrender).
  rewrite bind_returned, Hm.
  rewrite (addMarginToSvg_unparsed _ _ _ _ (NumberFacts.positive_not_le_zero m Hm) Hparse).
  reflexivity.
Qed.

End OneFile.

(** X14: for a file that is read, is not blank and is rendered, where
    the margin pass, when it runs, gets a document from its parser and
    both writes succeed, the turn writes two files and no other: the
    vector file [<slug>.svg] and then the raster file [<slug>.png] in the
    output directory, the raster one made from the very text of the
    vector one, at the density [Math.round(72 * scale)]; the text has
    gone through the margin pass only when the configured margin is
    positive. *)
Theorem processFile_writes_pair
    (cfg : RenderConfig) (sourceDir targetDir file content svg0 : string) :
  let m := match margin cfg with Some m => m | None => 0%float end in
  let scale := match pngScale cfg with Some s => s | None => 1%float end in
  let density := Math_round (72 * scale)%float in
  let svgPath := path_join env targetDir (Core.slugify file ++ ".svg") in
  let pngPath := path_join env targetDir (Core.slugify file ++ ".png") in
  let svg := if (0 <? m)%float then marginText env svg0 m else svg0 in
  fs_readFile env (path_join env sourceDir file) = Returned content ->
  trim content <> EmptyString ->
  snd (renderOne env (trim content) (display cfg)) = Returned svg0 ->
  ((0 <? m)%float = true -> parses env svg0) ->
  fs_writeFile env svgPath svg = Returned tt ->
  toFile env svg density pngPath = Returned tt ->
  snd (processFile env cfg sourceDir targetDir file) = Returned tt /\
  filter isWrite (fst (processFile env cfg sourceDir targetDir file))
  = [WriteFile svgPath svg; WritePng pngPath svg density].
Proof.
  intros m scale density svgPath pngPath svg Hread Hne Hrender Hparses Hwrite Hraster.
  destruct (processFile_rendered cfg sourceDir targetDir file content svg0
              Hread Hne Hrender Hparses) as (logs & l1 & l2 & Hlogs & _ & Heq).
  cbv zeta in Heq. fold m scale in Heq. fold density svgPath pngPath svg in Heq.
  rewrite Heq, Hwrite, Hraster. cbn [fst snd].
  split; [reflexivity|]. now rewrite filter_app, Hlogs.
Qed.

(** X15: no write is taken back.  For a file that is read, is not blank
    and is rendered, where the margin pass, when it runs, gets a document
    from its parser: when writing the vector file throws, the turn throws
    that error and has written nothing; when the rasterizer throws, the
    turn throws that error and the vector file it wrote stays. *)
Theorem processFile_failed_write
    (cfg : RenderConfig) (sourceDir targetDir file content svg0 : string) :
  let m := match margin cfg with Some m => m | None => 0%float end in
  let scale := match pngScale cfg with Some s => s | None => 1%float end in
  let density := Math_round (72 * scale)%float in
  let svgPath := path_join env targetDir (Core.slugify file ++ ".svg") in
  let pngPath := path_join env targetDir (Core.slugify file ++ ".png") in
  let svg := if (0 <? m)%float then marginText env svg0 m else svg0 in
  fs_readFile env (path_join env sourceDir file) = Returned content ->
  trim content <> EmptyString ->
  snd (renderOne env (trim content) (display cfg)) = Returned svg0 ->
  ((0 <? m)%float = true -> parses env svg0) ->
  (forall e, fs_writeFile env svgPath svg = Thrown e ->
     snd (processFile env cfg sourceDir targetDir file) = Thrown e /\
     filter isWrite (fst (processFile env cfg sourceDir targetDir file)) = []) /\
  (forall e, fs_writeFile env svgPath svg = Returned tt ->
     toFile env svg density pngPath = Thrown e ->
     snd (processFile env cfg sourceDir targetDir file) = Thrown e /\
     filter isWrite (fst (processFile env cfg sourceDir targetDir file))
     = [WriteFile svgPath svg]).
Proof.
  intros m scale density svgPath pngPath svg Hread Hne Hrender Hparses.
  destruct (processFile_rendered cfg sourceDir targetDir file content svg0
              Hread Hne Hrender Hparses) as (logs & l1 & l2 & Hlogs & _ & Heq).
  cbv zeta in Heq. fold m scale in Heq. fold density svgPath pngPath svg in Heq.
  split.
  - intros e Hwrite. rewrite Heq, Hwrite. cbn [fst snd]. now split.
  - intros e Hwrite Hraster. rewrite Heq, Hwrite, Hraster. cbn [fst snd].
    split; [reflexivity|]. now rewrite filter_app, Hlogs.
Qed.

(** The turn for a file whose rendering throws ends with that error
    after the events of the rendering. *)
Lemma processFile_rendering_throws
    (cfg : RenderConfig) (sourceDir targetDir file content e : string) :
  fs_readFile env (path_join env sourceDir file) = Returned content ->
  allWhiteSpace content = false ->
  snd (renderOne env (trim content) (display cfg)) = Thrown e ->
  processFile env cfg sourceDir targetDir file
  = (fst (renderOne env (trim content) (display cfg)), Thrown e).
Proof.
  intros Hread Hblank Hrender. unfold processFile, ask. rewrite Hread.
  rewrite bind_returned. cbn [app].
  assert (Hempty : isEmpty (trim content) = false).
  { destruct (isEmpty (trim content)) eqn:E; [|reflexivity].
    apply isEmpty_iff, trim_empty_iff in E. congruence. }
  rewrite Hempty.
  destruct (renderOne env (trim content) (display cfg)) as [t r].
  cbn in Hrender. now subst.
Qed.

(** X16: a turn that fails before its first write has written nothing.
    A file that cannot be read ends the turn with that error and without
    an event.  For a file that is read and is not blank: when the
    rendering throws, the turn throws that error and its events are
    those of the rendering, the lines the parser printed; when the
    rendering returns, the margin is positive and the parser of the
    margin pass throws, the turn throws that error after the lines of
    the two parsers.  In either case no file is written. *)
Theorem processFile_fails_before_writing
    (cfg : RenderConfig) (sourceDir targetDir file : string) (e : string) :
  let m := match margin cfg with Some m => m | None => 0%float end in
  (fs_readFile env (path_join env sourceDir file) = Thrown e ->
   processFile env cfg sourceDir targetDir file = ([], Thrown e)) /\
  (forall content,
      fs_readFile env (path_join env sourceDir file) = Returned content ->
      allWhiteSpace content = false ->
      (snd (renderOne env (trim content) (display cfg)) = Thrown e ->
       processFile env cfg sourceDir targetDir file
       = (fst (renderOne env (trim content) (display cfg)), Thrown e) /\
       filter isWrite (fst (processFile env cfg sourceDir targetDir file)) = []) /\
      (forall svg0 printed,
          snd (renderOne env (trim content) (display cfg)) = Returned svg0 ->
          (0 <? m)%float = true ->
          parseFromString env svg0 = (printed, Thrown e) ->
          processFile env cfg sourceDir targetDir file
          = ((fst (renderOne env (trim content) (display cfg))
              ++ map report printed)%list, Thrown e) /\
          filter isWrite (fst (processFile env cfg sourceDir targetDir file)) = [])).
Proof.
  intro m. split.
  - intro Hread. unfold processFile, ask. now rewrite Hread.
  - intros content Hread Hblank. split.
    + intro Hrender.
      rewrite (processFile_rendering_throws cfg sourceDir targetDir file content e
                 Hread Hblank Hrender).
      split; [reflexivity | apply renderOne_not_writes].
    + intros svg0 printed Hrender Hm Hparse.
      assert (Hne : trim content <> EmptyString).
      { intro E. apply trim_empty_iff in E. congruence. }
      rewrite (processFile_margin_throws cfg sourceDir targetDir file content svg0
                 printed e Hread Hne Hrender Hm Hparse).
      split; [reflexivity|]. cbn [fst].
      now rewrite filter_app, renderOne_not_writes, filter_reports.
Qed.

(** *** The whole run *)

Lemma forEach_throws {A : Type} (body : A -> IO unit) (before after : list A)
    (x : A) (t tx : list event) (e : string) :
  forEach body before = (t, Returned tt) ->
  body x = (tx, Thrown e) ->
  forEach body (before ++ x :: after)%list = ((t ++ tx)%list, Thrown e).
Proof.
  intros Hbefore Hx. rewrite (forEach_app _ _ _ _ Hbefore).
  cbn [forEach]. rewrite Hx. reflexivity.
Qed.

Lemma forEach_events {A : Type} (body : A -> IO unit) (P : A -> event -> Prop)
    (xs : list A) :
  (forall x, Forall (P x) (fst (body x))) ->
  Forall (fun e => exists x, In x xs /\ P x e) (fst (forEach body xs)).
Proof.
  intro Hbody. induction xs as [| x xs' IH]; [constructor|].
  cbn [forEach]. pose proof (Hbody x) as Hx.
  destruct (body x) as [t [[] | e]]; cbn [fst] in Hx.
  - rewrite bind_returned. cbn [fst]. apply Forall_app. split.
    + eapply Forall_impl; [|exact Hx]. intros ev Hev. exists x. split; [now left | exact Hev].
    + eapply Forall_impl; [|exact IH]. intros ev (y & Hy & Hev).
      exists y. split; [now right | exact Hev].
  - cbn [bind fst]. eapply Forall_impl; [|exact Hx].
    intros ev Hev. exists x. split; [now left | exact Hev].
Qed.

(** Whatever happens in the turn for [file], it leaves console lines and
    the two files named after [file] in the output directory, no other
    event. *)
Lemma processFile_events (cfg : RenderConfig) (sourceDir targetDir file : string) :
  Forall (outputOf env targetDir file)
    (fst (processFile env cfg sourceDir targetDir file)).
Proof.
  destruct (fs_readFile env (path_join env sourceDir file)) as [content | e] eqn:Hread.
  2:{ unfold processFile, ask. rewrite Hread. constructor. }
  destruct (isEmpty (trim content)) eqn:Hempty.
  { unfold processFile, ask. rewrite Hread, bind_returned. cbn [app].
    rewrite Hempty. repeat constructor. }
  assert (Hne : trim content <> EmptyString).
  { intro E. rewrite E in Hempty. discriminate. }
  assert (Hblank : allWhiteSpace content = false).
  { destruct (allWhiteSpace content) eqn:E; [|reflexivity].
    apply trim_empty_iff in E. contradiction. }
  destruct (snd (renderOne env (trim content) (display cfg))) as [svg0 | e] eqn:Hrender.
  2:{ rewrite (processFile_rendering_throws cfg sourceDir targetDir file content e
                 Hread Hblank Hrender).
      apply renderOne_is_output. }
  set (m := match margin cfg with Some m => m | None => 0%float end).
  assert (Hcases : ((0 <? m)%float = true -> parses env svg0) \/
                   ((0 <? m)%float = true /\
                    exists printed e, parseFromString env svg0 = (printed, Thrown e))).
  { destruct (0 <? m)%float; [|left; discriminate].
    destruct (parseFromString env svg0) as [printed [doc | e]] eqn:Hparse.
    - left. intros _. now exists printed, doc.
    - right. split; [reflexivity|]. now exists printed, e. }
  destruct Hcases as [Hparses | (Hm & printed & e & Hparse)].
  - destruct (processFile_rendered cfg sourceDir targetDir file content svg0
                Hread Hne Hrender Hparses) as (logs & l1 & l2 & _ & Hlogs & Heq).
    cbv zeta in Heq. rewrite Heq.
    destruct (fs_writeFile env _ _) as [[] | e1]; [|exact Hlogs].
    destruct (toFile env _ _ _) as [[] | e2]; cbn [fst];
      apply Forall_app; (split; [exact Hlogs|]); repeat constructor.
  - rewrite (processFile_margin_throws cfg sourceDir targetDir file content svg0
               printed e Hread Hne Hrender Hm Hparse).
    cbn [fst]. apply Forall_app.
    split; [apply renderOne_is_output | apply reports_are_output].
Qed.

(** The events of [main], case by case. *)
Lemma main_events (cfg : RenderConfig) :
  let sourceDir := path_resolve env (equationsDir cfg) in
  let targetDir := path_resolve env (outDir cfg) in
  fst (main env cfg) = [] \/
  exists rest,
    fst (main env cfg) = Mkdir targetDir :: rest /\
    (rest = [] \/
     (exists items,
         fs_readdir env sourceDir = Returned items /\
         Core.listTexFiles items = [] /\
         rest = [ConsoleError ("No .tex files found in " ++ sourceDir); SetExitCode 1]) \/
     (exists items,
         fs_readdir env sourceDir = Returned items /\
         Forall (fun e => exists file,
                     In file (Core.listTexFiles items) /\
                     outputOf env targetDir file e) rest)).
Proof.
  intros sourceDir targetDir. unfold main, ensureDir, listTexFiles, perform, ask.
  fold sourceDir targetDir.
  destruct (fs_mkdir env targetDir) as [[] | e]; [|now left].
  right. rewrite bind_returned. cbn [app].
  destruct (fs_readdir env sourceDir) as [items | e] eqn:Hreaddir.
  2:{ exists []. split; [reflexivity | now left]. }
  cbn [bind ret app].
  destruct (Core.listTexFiles items) as [| f files] eqn:Hfiles; cbn [List.length Nat.eqb].
  - eexists. split; [reflexivity|]. right. left. now exists items.
  - pose proof (forEach_events (processFile env cfg sourceDir targetDir)
                  (outputOf env targetDir) (f :: files)
                  (fun x => processFile_events cfg sourceDir targetDir x)) as Hev.
    destruct (forEach (processFile env cfg sourceDir targetDir) (f :: files)) as [t r].
    cbn [fst] in *. exists t. split; [reflexivity|]. right. right. exists items.
    split; [reflexivity|]. now rewrite Hfiles.
Qed.

(** X17: the run stops at the first turn that throws: it ends with that
    error, its events are those of the turns up to and including that
    one, and the files listed after it are not touched. *)
Theorem main_stops_at_first_failure
    (cfg : RenderConfig) (items : list Core.Dirent)
    (before after : list string) (file : string)
    (t tf : list event) (e : string) :
  let sourceDir := path_resolve env (equationsDir cfg) in
  let targetDir := path_resolve env (outDir cfg) in
  fs_mkdir env targetDir = Returned tt ->
  fs_readdir env sourceDir = Returned items ->
  Core.listTexFiles items = (before ++ file :: after)%list ->
  forEach (processFile env cfg sourceDir targetDir) before = (t, Returned tt) ->
  processFile env cfg sourceDir targetDir file = (tf, Thrown e) ->
  main env cfg = ((Mkdir targetDir :: t ++ tf)%list, Thrown e).
Proof.
  intros sourceDir targetDir Hmkdir Hreaddir Hfiles Hbefore Hfile.
  unfold main, ensureDir, listTexFiles. fold sourceDir targetDir.
  rewrite Hmkdir, Hreaddir. cbn [perform ask ret bind app].
  rewrite Hfiles.
  destruct (List.length (before ++ file :: after)) eqn:Hlen.
  { rewrite List.length_app in Hlen. cbn in Hlen. lia. }
  cbn [Nat.eqb].
  now rewrite (forEach_throws _ _ _ _ _ _ _ Hbefore Hfile).
Qed.

(** X18: when the output directory cannot be made the run throws that
    error and has done nothing; when the source directory cannot be read
    the run throws that error with the output directory made and
    nothing else done. *)
Theorem main_unreadable_directory (cfg : RenderConfig) (e : string) :
  let sourceDir := path_resolve env (equationsDir cfg) in
  let targetDir := path_resolve env (outDir cfg) in
  (fs_mkdir env targetDir = Thrown e -> main env cfg = ([], Thrown e)) /\
  (fs_mkdir env targetDir = Returned tt ->
   fs_readdir env sourceDir = Thrown e ->
   main env cfg = ([Mkdir targetDir], Thrown e)).
Proof.
  intros sourceDir targetDir.
  split; [intro Hmkdir | intros Hmkdir Hreaddir];
    unfold main, ensureDir, listTexFiles; fold sourceDir targetDir;
    rewrite Hmkdir; [reflexivity|].
  now rewrite Hreaddir.
Qed.

(** X19: every file the run writes is [<slug>.svg] or [<slug>.png] in the
    output directory, for the slug of a file that the enumerator
    returned. *)
Theorem main_writes_only_outputs (cfg : RenderConfig) :
  let sourceDir := path_resolve env (equationsDir cfg) in
  let targetDir := path_resolve env (outDir cfg) in
  Forall (fun e =>
            isWrite e = true ->
            exists items file,
              fs_readdir env sourceDir = Returned items /\
              In file (Core.listTexFiles items) /\
              outputOf env targetDir file e)
    (fst (main env cfg)).
Proof.
  intros sourceDir targetDir.
  destruct (main_events cfg) as [-> | (rest & -> & Hrest)]; [constructor|].
  fold sourceDir targetDir in Hrest.
  constructor; [discriminate|].
  destruct Hrest as [-> | [(items & _ & _ & ->) | (items & Hreaddir & Hall)]].
  - constructor.
  - repeat constructor; discriminate.
  - eapply Forall_impl; [|exact Hall].
    intros ev (file & Hin & Hout) _. now exists items, file.
Qed.

(** X20: the run sets the exit code only when the enumerator returned
    no file, and the code is 1: whatever a turn of the loop prints, it
    does not set the exit code. *)
Theorem main_exit_code_only_without_files (cfg : RenderConfig) (code : Z) :
  let sourceDir := path_resolve env (equationsDir cfg) in
  In (SetExitCode code) (fst (main env cfg)) ->
  code = 1 /\
  exists items,
    fs_readdir env sourceDir = Returned items /\ Core.listTexFiles items = [].
Proof.
  intros sourceDir Hin.
  destruct (main_events cfg) as [Hnil | (rest & Heq & Hrest)].
  { rewrite Hnil in Hin. contradiction. }
  fold sourceDir in Hrest. rewrite Heq in Hin.
  destruct Hin as [Hin | Hin]; [discriminate|].
  destruct Hrest as [-> | [(items & Hreaddir & Hnone & ->) | (items & Hreaddir & Hall)]].
  - contradiction.
  - split; [|now exists items].
    destruct Hin as [Hin | [Hin | []]]; [discriminate | now injection Hin].
  - rewrite Forall_forall in Hall.
    destruct (Hall (SetExitCode code) Hin) as (file & _ & Hout). contradiction.
Qed.

(** X21: a file that is read is skipped, with the one warning and
    nothing else, exactly when its text is white space from end to end. *)
Theorem processFile_skips_exactly_blank_files
    (cfg : RenderConfig) (sourceDir targetDir file content : string) :
  fs_readFile env (path_join env sourceDir file) = Returned content ->
  (processFile env cfg sourceDir targetDir file
   = ([ConsoleWarn ("Skipping empty file: " ++ file)], Returned tt)
   <-> allWhiteSpace content = true).
Proof.
  intro Hread. split.
  - intro Hskip.
    destruct (allWhiteSpace content) eqn:Hblank; [reflexivity|]. exfalso.
    assert (Hne : trim content <> EmptyString).
    { intro E. apply trim_empty_iff in E. congruence. }
    destruct (snd (renderOne env (trim content) (display cfg)))
      as [svg0 | e] eqn:Hrender.
    2:{ rewrite (processFile_rendering_throws cfg sourceDir targetDir file content e
                   Hread Hblank Hrender) in Hskip.
        discriminate. }
    set (m := match margin cfg with Some m => m | None => 0%float end).
    assert (Hcases : ((0 <? m)%float = true -> parses env svg0) \/
                     ((0 <? m)%float = true /\
                      exists printed e, parseFromString env svg0 = (printed, Thrown e))).
    { destruct (0 <? m)%float; [|left; discriminate].
      destruct (parseFromString env svg0) as [printed [doc | e]] eqn:Hparse.
      - left. intros _. now exists printed, doc.
      - right. split; [reflexivity|]. now exists printed, e. }
    destruct Hcases as [Hparses | (Hm & printed & e & Hparse)].
    + destruct (processFile_rendered cfg sourceDir targetDir file content svg0
                  Hread Hne Hrender Hparses) as (logs & l1 & l2 & Hlogs & _ & Heq).
      cbv zeta in Heq. rewrite Heq in Hskip.
      destruct (fs_writeFile env _ _) as [[] | e1]; [|discriminate].
      destruct (toFile env _ _ _) as [[] | e2]; [|discriminate].
      injection Hskip as Hskip. apply (f_equal (filter isWrite)) in Hskip.
      rewrite filter_app, Hlogs in Hskip. discriminate.
    + rewrite (processFile_margin_throws cfg sourceDir targetDir file content svg0
                 printed e Hread Hne Hrender Hm Hparse) in Hskip.
      discriminate.
  - intro Hblank. apply trim_empty_iff in Hblank.
    unfold processFile, ask. rewrite Hread, bind_returned. cbn [app].
    now rewrite Hblank.
Qed.

(** X22: the run takes the files in the order of the enumerator, one
    turn each: when no turn throws, its events are the making of the
    output directory and then the events of the turns, file after file,
    and it returns. *)
Theorem main_runs_the_turns_in_order
    (cfg : RenderConfig) (items : list Core.Dirent) :
  let sourceDir := path_resolve env (equationsDir cfg) in
  let targetDir := path_resolve env (outDir cfg) in
  fs_mkdir env targetDir = Returned tt ->
  fs_readdir env sourceDir = Returned items ->
  Core.listTexFiles items <> [] ->
  (forall file, In file (Core.listTexFiles items) ->
     snd (processFile env cfg sourceDir targetDir file) = Returned tt) ->
  main env cfg
  = (Mkdir targetDir
       :: flat_map (fun file => fst (processFile env cfg sourceDir targetDir file))
            (Core.listTexFiles items),
     Returned tt).
Proof.
  intros sourceDir targetDir Hmkdir Hreaddir Hsome Hturns.
  unfold main, ensureDir, listTexFiles. fold sourceDir targetDir.
  rewrite Hmkdir, Hreaddir. cbn [perform ask ret bind app].
  destruct (Core.listTexFiles items) as [| f files] eqn:Hfiles; [contradiction|].
  cbn [List.length Nat.eqb].
  assert (Hloop : forall xs,
             (forall file, In file xs ->
                snd (processFile env cfg sourceDir targetDir file) = Returned tt) ->
             forEach (processFile env cfg sourceDir targetDir) xs
             = (flat_map (fun file => fst (processFile env cfg sourceDir targetDir file)) xs,
                Returned tt)).
  { induction xs as [| x xs' IH]; intro Hall; [reflexivity|].
    cbn [forEach flat_map].
    pose proof (Hall x (or_introl eq_refl)) as Hx.
    destruct (processFile env cfg sourceDir targetDir x) as [t r].
    cbn [snd fst] in *. subst r. rewrite bind_returned.
    rewrite IH by (intros file Hin; apply Hall; now right). reflexivity. }
  now rewrite (Hloop (f :: files) Hturns).
Qed.

End WithEnvironment.

Lemma addMarginToSvg_parses_then_logs_witness :
  addMarginToSvg nesting "<svg viewBox='0 0 1 1'>" 20%float
  = ([ConsoleError "[xmldom fatalError] unclosed xml tag(s): svg"],
     Thrown "ParseError: unclosed xml tag(s): svg").
Proof.
  apply (proj1 (proj1 (proj2 (addMarginToSvg_parses_then_logs nesting
                                "<svg viewBox='0 0 1 1'>" 20%float)) eq_refl)
           [ParserError "[xmldom fatalError] unclosed xml tag(s): svg"]
           "ParseError: unclosed xml tag(s): svg").
  reflexivity.
Defined.

Lemma renderOne_first_and_shortest_witness :
  renderOne nesting "x^2" true
  = ([ConsoleError "[xmldom fatalError] unclosed xml tag(s): svg"],
     Thrown "ParseError: unclosed xml tag(s): svg") /\
  renderOne studio "x^2" true
  = ([], Returned (Core.wrapSvg "<svg viewBox='0 0 100 50'/>")).
Proof.
  split.
  - pose proof (renderOne_first_and_shortest nesting "x^2" true
                  "<mjx-container>" "><svg>x^2" "</svg></mjx-container>"
                  eq_refl eq_refl eq_refl) as H.
    vm_compute in H |- *. exact H.
  - pose proof (renderOne_first_and_shortest studio "x^2" true
                  "<mjx-container>" ">x^2" "</mjx-container>"
                  eq_refl eq_refl eq_refl) as H.
    vm_compute in H |- *. exact H.
Defined.

Lemma processFile_writes_pair_witness :
  snd (processFile studio defaultConfig "/work/equations" "/work/out" "euler.tex")
    = Returned tt /\
  filter isWrite
    (fst (processFile studio defaultConfig "/work/equations" "/work/out" "euler.tex"))
  = [WriteFile "/work/out/euler.svg" "<svg viewBox='-20 -20 140 90'/>";
     WritePng "/work/out/euler.png" "<svg viewBox='-20 -20 140 90'/>" 720%float].
Proof.
  assert (Hne : trim "e^{i\pi} + 1 = 0" <> EmptyString) by discriminate.
  pose proof (processFile_writes_pair studio defaultConfig
                "/work/equations" "/work/out" "euler.tex" "e^{i\pi} + 1 = 0"
                (Core.wrapSvg "<svg viewBox='0 0 100 50'/>")
                eq_refl Hne eq_refl
                (fun _ => ex_intro _ [] (ex_intro _ drawing eq_refl))
                eq_refl eq_refl) as H.
  vm_compute in H |- *. exact H.
Defined.

Lemma processFile_failed_write_witness :
  snd (processFile noRasterizer defaultConfig "/work/equations" "/work/out" "euler.tex")
    = Thrown "sharp: input buffer contains unsupported image format" /\
  filter isWrite
    (fst (processFile noRasterizer defaultConfig "/work/equations" "/work/out" "euler.tex"))
  = [WriteFile "/work/out/euler.svg" "<svg viewBox='-20 -20 140 90'/>"].
Proof.
  assert (Hne : trim "e^{i\pi} + 1 = 0" <> EmptyString) by discriminate.
  destruct (processFile_failed_write noRasterizer defaultConfig
              "/work/equations" "/work/out" "euler.tex" "e^{i\pi} + 1 = 0"
              (Core.wrapSvg "<svg viewBox='0 0 100 50'/>")
              eq_refl Hne eq_refl
              (fun _ => ex_intro _ [] (ex_intro _ drawing eq_refl))) as [_ H].
  specialize (H "sharp: input buffer contains unsupported image format" eq_refl eq_refl).
  vm_compute in H |- *. exact H.
Defined.

Lemma processFile_fails_before_writing_witness :
  processFile nesting defaultConfig "/work/equations" "/work/out" "euler.tex"
  = ([ConsoleError "[xmldom fatalError] unclosed xml tag(s): svg"],
     Thrown "ParseError: unclosed xml tag(s): svg") /\
  filter isWrite
    (fst (processFile nesting defaultConfig "/work/equations" "/work/out" "euler.tex"))
  = [].
Proof.
  pose proof (proj1 (proj2 (processFile_fails_before_writing nesting defaultConfig
                              "/work/equations" "/work/out" "euler.tex"
                              "ParseError: unclosed xml tag(s): svg")
                       "e^{i\pi} + 1 = 0" eq_refl eq_refl) eq_refl) as H.
  vm_compute in H |- *. exact H.
Defined.

Lemma main_stops_at_first_failure_witness :
  main (offline twoEquations (fun _ => Returned "x^2")) defaultConfig
  = ([Mkdir "/work/out"], Thrown "MathJax is not installed").
Proof.
  apply (main_stops_at_first_failure
           (offline twoEquations (fun _ => Returned "x^2")) defaultConfig
           twoEquations [] ["b.tex"] "a.tex" [] [] "MathJax is not installed");
    reflexivity.
Defined.

Lemma main_unreadable_directory_witness :
  main noDirectory defaultConfig
  = ([Mkdir "/work/out"], Thrown "ENOENT: no such file or directory, scandir").
Proof.
  apply (proj2 (main_unreadable_directory noDirectory defaultConfig
                  "ENOENT: no such file or directory, scandir")); reflexivity.
Defined.

Lemma main_exit_code_only_without_files_witness :
  1 = 1 /\
  exists items,
    fs_readdir (offline [] (fun _ => Thrown "ENOENT"))
      (path_resolve (offline [] (fun _ => Thrown "ENOENT")) (equationsDir defaultConfig))
    = Returned items /\
    Core.listTexFiles items = [].
Proof.
  apply (main_exit_code_only_without_files
           (offline [] (fun _ => Thrown "ENOENT")) defaultConfig 1).
  vm_compute. right. right. left. reflexivity.
Defined.

Lemma processFile_skips_exactly_blank_files_witness :
  processFile (offline oneEquation (fun _ => Returned "   ")) defaultConfig
    "/work/equations" "/work/out" "euler.tex"
  = ([ConsoleWarn ("Skipping empty file: " ++ "euler.tex")], Returned tt)
  <-> allWhiteSpace "   " = true.
Proof.
  apply (processFile_skips_exactly_blank_files
           (offline oneEquation (fun _ => Returned "   ")) defaultConfig
           "/work/equations" "/work/out" "euler.tex" "   ").
  reflexivity.
Defined.

Lemma main_runs_the_turns_in_order_witness :
  main studio defaultConfig
  = (Mkdir "/work/out"
       :: flat_map (fun file => fst (processFile studio defaultConfig
                                       "/work/equations" "/work/out" file))
            (Core.listTexFiles oneEquation),
     Returned tt).
Proof.
  apply (main_runs_the_turns_in_order studio defaultConfig oneEquation).
  - reflexivity.
  - reflexivity.
  - discriminate.
  - intros file [<- | []]. vm_compute. reflexivity.
Defined.

End RunFacts.
